(** * TLS certificate selection of sanic/http/tls.py

    A shallow embedding of the certificate identity ([CertSimple]), the
    SNI-driven selector ([CertSelector], [find_cert], [match_hostname]) and
    the two handshake callbacks, with the properties the specification
    states about them.

    Conventions of the embedding
    - A Python [str] is a [string].  Host names reach this module as IDN
      A-labels, so the characters are ASCII and [str.lower] is modelled on
      the ASCII letters.
    - A Python [dict] with string keys is a [gmap string pyval].
    - A raised exception is the [Raise] branch of [result]. *)

From Stdlib Require Import Ascii String List ZArith Bool.
From stdpp Require Import gmap strings.

Local Open Scope string_scope.
Local Open Scope list_scope.

(* ===================================================================== *)
(** ** Python values, exceptions *)
(* ===================================================================== *)

(** The values that occur in the [sanic] attribute dictionary and in the
    keyword arguments of [CertSimple]: [None], a string (a path, a
    password, a subject field) and a list of strings (the [names]). *)
Inductive pyval : Type :=
| VNone
| VStr (s : string)
| VList (l : list string).

#[global] Instance pyval_eq_dec : EqDecision pyval.
Proof. solve_decision. Defined.

(** Python truthiness ([bool(v)]). *)
Definition truthy (v : pyval) : bool :=
  match v with
  | VNone => false
  | VStr s => negb (String.eqb s "")
  | VList l => match l with [] => false | _ => true end
  end.

(** [a or b]. *)
Definition py_or (a b : pyval) : pyval := if truthy a then a else b.

(** The messages of the [ValueError]s this module raises. *)
Inductive value_error : Type :=
| NoCertificatesWithNames
    (* "No certificates with SubjectAlternativeNames found." *)
| NoSNIProvided
    (* "The client provided no SNI to match for certificate." *)
| NoCertificateMatching (server_name : string)
    (* f"No certificate found matching hostname {server_name!r}" *)
| NeedsFilenames
    (* "SSL dict needs filenames for cert and key." *)
| InvalidSslArgument
    (* f"Invalid ssl argument {type(ctxdef)}. ..." *)
| FolderExpected (p : string)
    (* f"Certificate folder expected but {p} is a file." *)
| NotFoundOrDenied (path : string)
    (* f"Certificate not found or permission denied {path}" *).

Inductive exn : Type :=
| ValueError (e : value_error)
| TypeError          (* iterating None, a missing positional argument *)
| KeyError (k : string)
| PlatformError (code : nat) (* raised by the ssl module or the OS *).

Inductive result (A : Type) : Type :=
| Ok (a : A)
| Raise (e : exn).
Arguments Ok {A} a.
Arguments Raise {A} e.

Definition bind {A B} (r : result A) (k : A -> result B) : result B :=
  match r with
  | Ok a => k a
  | Raise e => Raise e
  end.

Notation "'let!' x ':=' r 'in' k" := (bind r (fun x => k))
  (at level 10, x name, r at level 100, k at level 200).

(* ===================================================================== *)
(** ** The string methods used by the matcher *)
(* ===================================================================== *)

Module Str.

(** [c.lower()] on one ASCII character. *)
Definition lower_ascii (c : ascii) : ascii :=
  let n := nat_of_ascii c in
  if (65 <=? n)%nat && (n <=? 90)%nat then ascii_of_nat (n + 32) else c.

(** [s.lower()] *)
Fixpoint lower (s : string) : string :=
  match s with
  | EmptyString => EmptyString
  | String c s' => String (lower_ascii c) (lower s')
  end.

(** [s.startswith(p)] *)
Fixpoint startswith (p s : string) : bool :=
  match p with
  | EmptyString => true
  | String a p' =>
      match s with
      | EmptyString => false
      | String b s' => Ascii.eqb a b && startswith p' s'
      end
  end.

(** [s[n:]] *)
Fixpoint slice_from (n : nat) (s : string) : string :=
  match n with
  | O => s
  | S n' =>
      match s with
      | EmptyString => EmptyString
      | String _ s' => slice_from n' s'
      end
  end.

(** [s.split(sep, 1)] for a one-character separator: cut at the first
    occurrence of [sep]; the list has one element when [sep] does not
    occur and two when it does. *)
Fixpoint split1 (sep : ascii) (s : string) : list string :=
  match s with
  | EmptyString => [EmptyString]
  | String c s' =>
      if Ascii.eqb c sep then [EmptyString; s']
      else
        match split1 sep s' with
        | [] => [String c EmptyString]
        | hd :: tl => String c hd :: tl
        end
  end.

(** [l[-1]] on a list that [split] returned (never empty). *)
Definition last_item (l : list string) : string := List.last l EmptyString.

(** Iterating a [str] yields its characters as one-character strings. *)
Fixpoint chars (s : string) : list string :=
  match s with
  | EmptyString => []
  | String c s' => String c EmptyString :: chars s'
  end.

(** [sep] occurs in [s]. *)
Fixpoint contains (sep : ascii) (s : string) : bool :=
  match s with
  | EmptyString => false
  | String c s' => Ascii.eqb c sep || contains sep s'
  end.

End Str.

Definition dot : ascii := "."%char.

(* ===================================================================== *)
(** ** Contexts *)
(* ===================================================================== *)

Inductive tls_version := TLSv1_2.
Inductive sni_hook := server_name_hook | selector_sni_hook.

(** An [ssl.SSLContext], by what this module sets on it.  [ciphers] is the
    argument given to [set_ciphers], not the list the context ends up
    with.  [sanic] is [None] for a context without the [sanic] attribute
    (a plain [SSLContext]) and the attribute's dictionary for a
    [CertSimple]. *)
Record SSLContext : Type := mkSSLContext {
  minimum_version : tls_version;
  ciphers : list string;
  alpn_protocols : list string;
  sni_callback : sni_hook;
  cert_chain : option (pyval * pyval * pyval);
  sanic : option (gmap string pyval)
}.

#[global] Instance tls_version_eq_dec : EqDecision tls_version.
Proof. solve_decision. Defined.
#[global] Instance sni_hook_eq_dec : EqDecision sni_hook.
Proof. solve_decision. Defined.
#[global] Instance SSLContext_eq_dec : EqDecision SSLContext.
Proof. solve_decision. Defined.

(** [for name in v]: the items of an iterable value. *)
Definition iterate (v : pyval) : result (list string) :=
  match v with
  | VNone => Raise TypeError
  | VStr s => Ok (Str.chars s)
  | VList l => Ok l
  end.

(** [dict(getattr(ctx, "sanic", {})).get("names", [])] *)
Definition get_names (ctx : SSLContext) : pyval :=
  match sanic ctx with
  | None => VList []
  | Some d => default (VList []) (d !! "names")
  end.

(* ===================================================================== *)
(** ** match_hostname *)
(* ===================================================================== *)

(** The body of the loop of [match_hostname] for one [name]; [hostname] is
    already lower-cased. *)
Definition name_matches (name hostname : string) : bool :=
  if Str.startswith "*." name then
    String.eqb (Str.last_item (Str.split1 dot hostname)) (Str.slice_from 2 name)
  else String.eqb name hostname.

(** [for name in names: ... return True] / [return False] *)
Fixpoint match_loop (names : list string) (hostname : string) : bool :=
  match names with
  | [] => false
  | name :: rest =>
      if name_matches name hostname then true else match_loop rest hostname
  end.

Definition match_hostname (ctx : SSLContext) (hostname : string) : result bool :=
  let names := get_names ctx in
  let hostname := Str.lower hostname in
  let! names := iterate names in
  Ok (match_loop names hostname).

(* ===================================================================== *)
(** ** CertSelector *)
(* ===================================================================== *)

(** The two attributes a [CertSelector] adds to its context. *)
Record CertSelector : Type := mkCertSelector {
  sanic_select : list SSLContext;
  sanic_fallback : option SSLContext
}.

Definition append_select (self : CertSelector) (ctx : SSLContext) : CertSelector :=
  {| sanic_select := sanic_select self ++ [ctx];
     sanic_fallback := sanic_fallback self |}.

Definition set_fallback (self : CertSelector) (ctx : SSLContext) : CertSelector :=
  {| sanic_select := sanic_select self;
     sanic_fallback := Some ctx |}.

(** [for i, ctx in enumerate(ctxs): ...] of [CertSelector.__init__], from
    index [i] on.  An element of [ctxs] is [None] or a context; a context
    object is always truthy. *)
Fixpoint init_loop (i : nat) (ctxs : list (option SSLContext))
    (self : CertSelector) (all_names : list string)
    : result (CertSelector * list string) :=
  match ctxs with
  | [] => Ok (self, all_names)
  | None :: rest => init_loop (S i) rest self all_names
  | Some ctx :: rest =>
      let names := get_names ctx in
      let! names := iterate names in
      let all_names := all_names ++ names in
      let self := append_select self ctx in
      let self := if Nat.eqb i 0 then set_fallback self ctx else self in
      init_loop (S i) rest self all_names
  end.

(** [CertSelector(ctxs)] *)
Definition CertSelector_init (ctxs : list (option SSLContext)) : result CertSelector :=
  let self := {| sanic_select := []; sanic_fallback := None |} in
  let all_names := [] in
  let! st := init_loop 0 ctxs self all_names in
  match snd st with
  | [] => Raise (ValueError NoCertificatesWithNames)
  | _ :: _ => Ok (fst st)
  end.

(** [for ctx in self.sanic_select: if match_hostname(ctx, server_name):
    return ctx]; [None] when the loop runs to its end. *)
Fixpoint find_loop (entries : list SSLContext) (server_name : string)
    : result (option SSLContext) :=
  match entries with
  | [] => Ok None
  | ctx :: rest =>
      let! m := match_hostname ctx server_name in
      if m then Ok (Some ctx) else find_loop rest server_name
  end.

(** [find_cert(self, server_name)]; the ssl module passes [None] for a
    client that sent no SNI. *)
Definition find_cert (self : CertSelector) (server_name : option string)
    : result SSLContext :=
  match server_name with
  | None | Some EmptyString =>
      match sanic_fallback self with
      | Some fallback => Ok fallback
      | None => Raise (ValueError NoSNIProvided)
      end
  | Some name =>
      let! found := find_loop (sanic_select self) name in
      match found with
      | Some ctx => Ok ctx
      | None =>
          match sanic_fallback self with
          | Some fallback => Ok fallback
          | None => Raise (ValueError (NoCertificateMatching name))
          end
      end
  end.

(* ===================================================================== *)
(** ** The handshake callbacks *)
(* ===================================================================== *)

(** The context a handshake object points to: the listening context it was
    created from, or the context an SNI callback put in its place. *)
Inductive active_context : Type :=
| Listening
| Switched (ctx : SSLContext).

(** An [ssl.SSLObject]: [sanic_server_name] is [None] while the attribute
    has not been set. *)
Record SSLObject : Type := mkSSLObject {
  sanic_server_name : option (option string);
  context : active_context
}.

(** What a callback does, in the order it does it. *)
Inductive event : Type :=
| StoreServerName (server_name : option string)
| FindCert (server_name : option string)
| SwitchContext (ctx : SSLContext)
| LogWarning (e : value_error).

(** A handshake in progress: its object and the effects so far. *)
Record handshake : Type := mkHandshake {
  sslobj : SSLObject;
  trace : list event
}.

Definition emit (h : handshake) (e : event) : handshake :=
  {| sslobj := sslobj h; trace := trace h ++ [e] |}.

(** [sslobj.sanic_server_name = server_name] *)
Definition server_name_callback (h : handshake) (server_name : option string)
    : handshake :=
  emit {| sslobj := {| sanic_server_name := Some server_name;
                       context := context (sslobj h) |};
          trace := trace h |}
       (StoreServerName server_name).

Definition ALERT_DESCRIPTION_UNRECOGNIZED_NAME : Z := 112.

(** [selector_sni_callback(sslobj, server_name, ctx)]: the handshake after
    the call and the value returned (or the exception that escaped: only
    [ValueError] is caught). *)
Definition selector_sni_callback (h : handshake) (server_name : option string)
    (ctx : CertSelector) : handshake * result (option Z) :=
  let h := server_name_callback h server_name in
  let h := emit h (FindCert server_name) in
  match find_cert ctx server_name with
  | Ok chosen =>
      (emit {| sslobj := {| sanic_server_name := sanic_server_name (sslobj h);
                            context := Switched chosen |};
               trace := trace h |}
            (SwitchContext chosen),
       Ok None)
  | Raise (ValueError e) =>
      (emit h (LogWarning e), Ok (Some ALERT_DESCRIPTION_UNRECOGNIZED_NAME))
  | Raise e => (h, Raise e)
  end.

(* ===================================================================== *)
(** ** CertSimple and the configuration shorthands *)
(* ===================================================================== *)

Definition CIPHERS_TLS12 : list string :=
  [ "ECDHE-ECDSA-CHACHA20-POLY1305";
    "ECDHE-ECDSA-AES256-GCM-SHA384";
    "ECDHE-ECDSA-AES128-GCM-SHA256";
    "ECDHE-RSA-CHACHA20-POLY1305";
    "ECDHE-RSA-AES256-GCM-SHA384";
    "ECDHE-RSA-AES128-GCM-SHA256" ].

(** What [ssl._ssl._test_decode_cert] returns, as far as this module reads
    it: [subject] is a tuple of relative distinguished names, each a tuple
    of (field, value) pairs; [subjectAltName] is missing from the
    dictionary for a certificate without that extension. *)
Record decoded_cert : Type := mkDecodedCert {
  dc_subject : list (list (string * string));          (* cert["subject"] *)
  dc_subjectAltName : option (list (string * string))  (* cert["subjectAltName"] *)
}.

(** [[name for t, name in san if t in ["DNS", "IP Address"]]] *)
Fixpoint san_names (san : list (string * string)) : list string :=
  match san with
  | [] => []
  | (t, name) :: rest =>
      if String.eqb t "DNS" || String.eqb t "IP Address"
      then name :: san_names rest
      else san_names rest
  end.

(** [{k: v for item in subject for k, v in item}]: a later pair replaces an
    earlier one with the same key. *)
Definition subject_dict (subject : list (list (string * string)))
    : gmap string pyval :=
  fold_left (fun d kv => <[fst kv := VStr (snd kv)]> d) (concat subject) ∅.

(** The shapes of the [ssl] argument of [app.run]. *)
Inductive ssldef : Type :=
| DNone
| DContext (ctx : SSLContext)
| DStr (p : string)
| DDict (d : gmap string pyval)
| DOther.

Section Loading.

(** The platform: decoding a certificate file, loading a certificate
    chain into a context, and the file system. *)
Variable decode_cert : pyval -> result decoded_cert.
Variable load_cert_chain : pyval -> pyval -> pyval -> result unit.
Variable isfile : string -> bool.
Variable readable : string -> bool.
Variable path_join : string -> string -> string.

(** [create_context(certfile, keyfile, password)] *)
Definition create_context (certfile keyfile password : pyval)
    : result SSLContext :=
  let context :=
    {| minimum_version := TLSv1_2;
       ciphers := CIPHERS_TLS12;
       alpn_protocols := ["http/1.1"];
       sni_callback := server_name_hook;
       cert_chain := None;
       sanic := None |} in
  if truthy certfile && truthy keyfile then
    let! _ := load_cert_chain certfile keyfile password in
    Ok {| minimum_version := minimum_version context;
          ciphers := ciphers context;
          alpn_protocols := alpn_protocols context;
          sni_callback := sni_callback context;
          cert_chain := Some (certfile, keyfile, password);
          sanic := sanic context |}
  else Ok context.

(** [CertSimple.__new__] with the parameters [cert], [key] and the
    remaining keyword arguments [kw]. *)
Definition CertSimple_new (cert key : pyval) (kw : gmap string pyval)
    : result SSLContext :=
  let certfile := py_or (default VNone (kw !! "certificate")) cert in
  let kw := <["cert" := certfile]> (delete "certificate" kw) in
  let keyfile := py_or (default VNone (kw !! "keyfile")) key in
  let kw := <["key" := keyfile]> (delete "keyfile" kw) in
  let password := default VNone (kw !! "password") in
  let kw := delete "password" kw in
  if negb (truthy certfile) || negb (truthy keyfile) then
    Raise (ValueError NeedsFilenames)
  else
    let subject : gmap string pyval := ∅ in
    let! sk :=
      match kw !! "names" with
      | None =>
          let! cert := decode_cert certfile in
          let! san :=
            match dc_subjectAltName cert with
            | Some san => Ok san
            | None => Raise (KeyError "subjectAltName")
            end in
          let kw := <["names" := VList (san_names san)]> kw in
          let subject := subject_dict (dc_subject cert) in
          Ok (subject, kw)
      | Some _ => Ok (subject, kw)
      end in
    let! self := create_context certfile keyfile password in
    Ok {| minimum_version := minimum_version self;
          ciphers := ciphers self;
          alpn_protocols := alpn_protocols self;
          sni_callback := sni_callback self;
          cert_chain := cert_chain self;
          sanic := Some (snd sk ∪ fst sk) |}.

(** [CertSimple] called with the items of the mapping [ctxdef] as keyword
    arguments.  [__new__] is called first: a key [cls] collides with its
    first parameter, [cert] and [key] are required parameters, and the
    other keys go to [kw].  [__init__] is then called with the same
    arguments, where a key [self] collides with its first parameter. *)
Definition CertSimple_of_dict (ctxdef : gmap string pyval) : result SSLContext :=
  match ctxdef !! "cls" with
  | Some _ => Raise TypeError
  | None =>
      match ctxdef !! "cert", ctxdef !! "key" with
      | Some cert, Some key =>
          let! self :=
            CertSimple_new cert key (delete "key" (delete "cert" ctxdef)) in
          match ctxdef !! "self" with
          | Some _ => Raise TypeError
          | None => Ok self
          end
      | _, _ => Raise TypeError
      end
  end.

(** [load_cert_dir(p)] *)
Definition load_cert_dir (p : string) : result SSLContext :=
  if isfile p then Raise (ValueError (FolderExpected p))
  else
    let keyfile := path_join p "privkey.pem" in
    let certfile := path_join p "fullchain.pem" in
    if negb (readable keyfile) then
      Raise (ValueError (NotFoundOrDenied keyfile))
    else if negb (readable certfile) then
      Raise (ValueError (NotFoundOrDenied certfile))
    else CertSimple_new (VStr certfile) (VStr keyfile) ∅.

(** [shorthand_to_ctx(ctxdef)] *)
Definition shorthand_to_ctx (ctxdef : ssldef) : result (option SSLContext) :=
  match ctxdef with
  | DNone => Ok None
  | DContext ctx => Ok (Some ctx)
  | DStr p => let! ctx := load_cert_dir p in Ok (Some ctx)
  | DDict d => let! ctx := CertSimple_of_dict d in Ok (Some ctx)
  | DOther => Raise (ValueError InvalidSslArgument)
  end.

End Loading.

(* ===================================================================== *)
(** ** process_to_context *)
(* ===================================================================== *)

(** What [process_to_context] returns besides [None]: one context, or a
    selector over several. *)
Inductive listening_context : Type :=
| Plain (ctx : SSLContext)
| Selecting (self : CertSelector).

(** The [ssl] argument of [app.run]: a list or tuple of shorthands, or one
    shorthand.  A list inside the list is a [DOther] element. *)
Inductive ssl_argument : Type :=
| Several (items : list ssldef)
| Single (ctxdef : ssldef).

(** [CertSelector.__init__] run over an iterator instead of a list:
    [items] holds, position by position, what asking the iterator for the
    next element gives, a value or an exception raised while it is
    computed.  The loop body is the one of [init_loop]. *)
Fixpoint init_loop_iter (i : nat) (items : list (result (option SSLContext)))
    (self : CertSelector) (all_names : list string)
    : result (CertSelector * list string) :=
  match items with
  | [] => Ok (self, all_names)
  | item :: rest =>
      let! ctx := item in
      match ctx with
      | None => init_loop_iter (S i) rest self all_names
      | Some ctx =>
          let names := get_names ctx in
          let! names := iterate names in
          let all_names := all_names ++ names in
          let self := append_select self ctx in
          let self := if Nat.eqb i 0 then set_fallback self ctx else self in
          init_loop_iter (S i) rest self all_names
      end
  end.

Definition CertSelector_init_iter (items : list (result (option SSLContext)))
    : result CertSelector :=
  let self := {| sanic_select := []; sanic_fallback := None |} in
  let all_names := [] in
  let! st := init_loop_iter 0 items self all_names in
  match snd st with
  | [] => Raise (ValueError NoCertificatesWithNames)
  | _ :: _ => Ok (fst st)
  end.

Section Processing.

Variable decode_cert : pyval -> result decoded_cert.
Variable load_cert_chain : pyval -> pyval -> pyval -> result unit.
Variable isfile : string -> bool.
Variable readable : string -> bool.
Variable path_join : string -> string -> string.

(** [process_to_context(ssldef)]: [map(shorthand_to_ctx, ssldef)] is
    consumed by the loop of [CertSelector.__init__], one element at a
    time. *)
Definition process_to_context (ssldef : ssl_argument)
    : result (option listening_context) :=
  match ssldef with
  | Several items =>
      let! self :=
        CertSelector_init_iter
          (map (shorthand_to_ctx decode_cert load_cert_chain isfile readable
                  path_join) items) in
      Ok (Some (Selecting self))
  | Single ctxdef =>
      let! ctx :=
        shorthand_to_ctx decode_cert load_cert_chain isfile readable path_join
          ctxdef in
      Ok (option_map Plain ctx)
  end.

End Processing.

(* ===================================================================== *)
(** ** Certificates for local development *)
(* ===================================================================== *)

(** A [pathlib.Path], by the text it was made of; the empty text is the
    path that prints as a dot. *)
Inductive Path : Type := mkPath (text : string).

(** [str(path)] *)
Definition path_str (p : Path) : string :=
  match p with
  | mkPath EmptyString => "."
  | mkPath text => text
  end.

(** A value that is a [Path] or a [str]. *)
Inductive path_or_str : Type :=
| IsPath (p : Path)
| IsStr (s : string).

(** A setting of the configuration: the [Default] placeholder, or a value. *)
Inductive tls_setting : Type :=
| IsDefault
| Given (v : path_or_str).

Inductive Mode : Type := PRODUCTION | DEBUG.

(** The application, as far as this module reads it: [app.state.mode] and
    three settings of [app.config]. *)
Record Sanic : Type := mkSanic {
  mode : Mode;
  LOCAL_TLS_KEY : tls_setting;
  LOCAL_TLS_CERT : tls_setting;
  LOCALHOST : string
}.

(** The messages of the [SanicException]s this module raises. *)
Inductive sanic_exception : Type :=
| NoCertificateInProduction
    (* "Cannot run Sanic as an HTTPS server in PRODUCTION mode ..." *)
| CannotGenerateCertificate (key_path cert_path : string)
    (* f"Cannot generate certificate at [{key_path}, {cert_path}]. ..." *)
| MkcertNotInstalled
    (* "Sanic uses mkcert to generate local TLS certificates. ..." *).

Inductive startup_exn : Type :=
| SanicException (e : sanic_exception)
| RuntimeError        (* "Reached an unknown state. No tmpdir." *)
| FileNotFoundError
| NameError           (* a variable of the enclosing call that was never bound *)
| OSError (code : nat) (* any other failure of the platform *)
| LoadingError (e : exn) (* raised by [CertSimple] *).

Inductive outcome (A : Type) : Type :=
| Returned (a : A)
| Raised (e : startup_exn).
Arguments Returned {A} a.
Arguments Raised {A} e.

(** Where the output of a subprocess goes: to the null device, or to the
    caller as text. *)
Inductive stdio : Type := Discarded | Captured.

(** The variables of [get_ssl_context] that its [cleanup] function reads
    when it runs: [tmpdir] is always bound ([None] or a path); [key_path]
    and [cert_path] are [None] here while they were never bound. *)
Record closure : Type := mkClosure {
  cl_tmpdir : option Path;
  cl_key_path : option Path;
  cl_cert_path : option Path
}.

(** [" " * n] *)
Fixpoint spaces (n : nat) : string :=
  match n with
  | O => EmptyString
  | S n' => String " " (spaces n')
  end.

Section LocalDevelopment.

(** The state of the file system and of the terminal, and the platform
    calls that read or change it. *)
Variable World : Type.
Variable path_exists : World -> Path -> outcome bool.
  (* path.exists(): an OSError other than "no such file" is raised *)
Variable Path_of : string -> Path.                      (* Path(s) *)
Variable joinpath : Path -> string -> Path.             (* path / s *)
Variable parent : Path -> Path.                         (* path.parent *)
Variable mkdtemp : World -> World * outcome string.
Variable run : World -> list string -> stdio -> World * outcome string.
  (* subprocess.run(cmd, check=True, ...): the text captured *)
Variable loading :
  string -> (World -> World * outcome string) -> World -> World * outcome string.
  (* the block under [with loading(message):] *)
Variable stdout_write : World -> string -> World.
Variable stdout_flush : World -> World.
Variable unlink : World -> Path -> World * outcome unit.
Variable rmdir : World -> Path -> World * outcome unit.
Variable decode_cert_in : World -> pyval -> result decoded_cert.
Variable load_cert_chain_in : World -> pyval -> pyval -> pyval -> result unit.

(** The two constants of [sanic.constants]. *)
Variable DEFAULT_LOCAL_TLS_KEY : path_or_str.
Variable DEFAULT_LOCAL_TLS_CERT : path_or_str.

(** [_make_path(maybe_path, tmpdir)] *)
Definition _make_path (w : World) (maybe_path : path_or_str)
    (tmpdir : option Path) : outcome Path :=
  match maybe_path with
  | IsPath p => Returned p
  | IsStr s =>
      let path := Path_of s in
      match path_exists w path with
      | Raised e => Raised e
      | Returned there =>
          if negb there then
            match tmpdir with
            | None => Raised RuntimeError
            | Some tmpdir => Returned (joinpath tmpdir s)
            end
          else Returned path
      end
  end.

(** [check_mkcert()] *)
Definition check_mkcert (w : World) : World * outcome unit :=
  let '(w, r) := run w ["mkcert"; "-help"] Discarded in
  match r with
  | Returned _ => (w, Returned tt)
  | Raised _ => (w, Raised (SanicException MkcertNotInstalled))
  end.

(** [generate_local_certificate(key_path, cert_path, localhost)] *)
Definition generate_local_certificate (w : World) (key_path cert_path : Path)
    (localhost : string) : World * outcome unit :=
  let '(w, r) := check_mkcert w in
  match r with
  | Raised e => (w, Raised e)
  | Returned _ =>
      (* not key_path.parent.exists() or not cert_path.parent.exists() *)
      let missing :=
        match path_exists w (parent key_path) with
        | Raised e => Raised e
        | Returned false => Returned true
        | Returned true =>
            match path_exists w (parent cert_path) with
            | Raised e => Raised e
            | Returned there => Returned (negb there)
            end
        end in
      match missing with
      | Raised e => (w, Raised e)
      | Returned true =>
          (w, Raised (SanicException
                        (CannotGenerateCertificate (path_str key_path)
                           (path_str cert_path))))
      | Returned false =>
          let message := "Generating TLS certificate" in
          let '(w, r) :=
            loading message
              (fun w =>
                 let cmd := ["mkcert"; "-key-file"; path_str key_path;
                             "-cert-file"; path_str cert_path; localhost] in
                 run w cmd Captured) w in
          match r with
          | Raised e => (w, Raised e)
          | Returned resp_stdout =>
              let w := stdout_write w
                         (String "013" (spaces (String.length message + 4))) in
              let w := stdout_flush w in
              let w := stdout_write w resp_stdout in
              (w, Returned tt)
          end
      end
  end.

(** The [cleanup] function that [get_ssl_context] registers, run later with
    the variables as the call left them. *)
Definition cleanup (c : closure) (w : World) : World * outcome unit :=
  match cl_tmpdir c with
  | None => (w, Returned tt)
  | Some tmpdir =>
      (* with suppress(FileNotFoundError): *)
      let '(w, r) :=
        match cl_key_path c with
        | None => (w, Raised NameError)
        | Some key_path =>
            let '(w, r) := unlink w key_path in
            match r with
            | Raised e => (w, Raised e)
            | Returned _ =>
                match cl_cert_path c with
                | None => (w, Raised NameError)
                | Some cert_path => unlink w cert_path
                end
            end
        end in
      match r with
      | Returned _ | Raised FileNotFoundError => rmdir w tmpdir
      | Raised e => (w, Raised e)
      end
  end.

(** The [try] block of [get_ssl_context]: the world after it, the variables
    its [cleanup] will see, and the two paths or the exception. *)
Definition resolve_local_paths (w : World) (app : Sanic)
    : World * closure * outcome (Path * Path) :=
  let tmpdir : option Path := None in
  let '(w, r) :=
    match LOCAL_TLS_KEY app, LOCAL_TLS_CERT app with
    | Given _, Given _ => (w, Returned tmpdir)
    | _, _ =>
        let '(w, r) := mkdtemp w in
        match r with
        | Returned d => (w, Returned (Some (Path_of d)))
        | Raised e => (w, Raised e)
        end
    end in
  match r with
  | Raised e => (w, mkClosure tmpdir None None, Raised e)
  | Returned tmpdir =>
      let key :=
        match LOCAL_TLS_KEY app with
        | IsDefault => DEFAULT_LOCAL_TLS_KEY
        | Given v => v
        end in
      let cert :=
        match LOCAL_TLS_CERT app with
        | IsDefault => DEFAULT_LOCAL_TLS_CERT
        | Given v => v
        end in
      match _make_path w key tmpdir with
      | Raised e => (w, mkClosure tmpdir None None, Raised e)
      | Returned key_path =>
          match _make_path w cert tmpdir with
          | Raised e => (w, mkClosure tmpdir (Some key_path) None, Raised e)
          | Returned cert_path =>
              let c := mkClosure tmpdir (Some key_path) (Some cert_path) in
              match path_exists w cert_path with
              | Raised e => (w, c, Raised e)
              | Returned there =>
                  if negb there then
                    let '(w, r) :=
                      generate_local_certificate w key_path cert_path
                        (LOCALHOST app) in
                    match r with
                    | Raised e => (w, c, Raised e)
                    | Returned _ => (w, c, Returned (key_path, cert_path))
                    end
                  else (w, c, Returned (key_path, cert_path))
              end
          end
      end
  end.

(** [get_ssl_context(app, ssl)]: the world and the listeners registered
    with [app.main_process_stop] after the call, and what it returns. *)
Definition get_ssl_context (w : World) (main_process_stop : list closure)
    (app : Sanic) (ssl : option SSLContext)
    : World * list closure * outcome SSLContext :=
  match ssl with
  | Some ssl => (w, main_process_stop, Returned ssl)
  | None =>
      match mode app with
      | PRODUCTION =>
          (w, main_process_stop,
           Raised (SanicException NoCertificateInProduction))
      | _ =>
          let '(w, c, r) := resolve_local_paths w app in
          (* finally: *)
          let main_process_stop := main_process_stop ++ [c] in
          match r with
          | Raised e => (w, main_process_stop, Raised e)
          | Returned (key_path, cert_path) =>
              match CertSimple_new (decode_cert_in w) (load_cert_chain_in w)
                      (VStr (path_str cert_path)) (VStr (path_str key_path)) ∅
              with
              | Ok ctx => (w, main_process_stop, Returned ctx)
              | Raise e => (w, main_process_stop, Raised (LoadingError e))
              end
          end
      end
  end.

End LocalDevelopment.

(* ===================================================================== *)
(** ** Notions used to state the properties *)
(* ===================================================================== *)

(** The text after the first [sep] of [s] is [t]. *)
Definition after_first (sep : ascii) (s t : string) : Prop :=
  exists label, Str.contains sep label = false /\ s = label +:+ String sep t.

(** A context that serves [names] and nothing else: what [CertSimple]
    attaches, reduced to the one key the matcher reads. *)
Definition serving (names : list string) : SSLContext :=
  {| minimum_version := TLSv1_2;
     ciphers := CIPHERS_TLS12;
     alpn_protocols := ["http/1.1"];
     sni_callback := server_name_hook;
     cert_chain := None;
     sanic := Some {["names" := VList names]} |}.

(** The rule the code implements for an entry [*.<suffix>] against an
    already lower-cased host name: the text after the first dot is the
    suffix, or there is no dot and the whole name is the suffix. *)
Definition wildcard_rule (suffix hostname : string) : Prop :=
  after_first dot hostname suffix \/
  (Str.contains dot hostname = false /\ hostname = suffix).

Definition no_wildcard (names : list string) : Prop :=
  Forall (fun name => Str.startswith "*." name = false) names.

(** The entries that are not [None], in the order given. *)
Fixpoint surviving (ctxs : list (option SSLContext)) : list SSLContext :=
  match ctxs with
  | [] => []
  | None :: rest => surviving rest
  | Some ctx :: rest => ctx :: surviving rest
  end.

(** The element at index 0 of the list given, when it is not [None]. *)
Definition first_given (ctxs : list (option SSLContext)) : option SSLContext :=
  match ctxs with
  | Some ctx :: _ => Some ctx
  | _ => None
  end.

(** The served names of a context: the items of its [names]. *)
Definition served_names (ctx : SSLContext) : result (list string) :=
  iterate (get_names ctx).

(** All served names of a list of contexts, in order. *)
Fixpoint all_served_names (entries : list SSLContext) : result (list string) :=
  match entries with
  | [] => Ok []
  | ctx :: rest =>
      let! names := served_names ctx in
      let! more := all_served_names rest in
      Ok (names ++ more)
  end.

Definition has_names (ctx : SSLContext) : Prop :=
  exists names, served_names ctx = Ok names.

Definition no_match (name : string) (ctx : SSLContext) : Prop :=
  match_hostname ctx name = Ok false.

(** What [find_cert] does once the scan found nothing, or was skipped. *)
Definition fallback_or (self : CertSelector) (e : value_error) : result SSLContext :=
  match sanic_fallback self with
  | Some fallback => Ok fallback
  | None => Raise (ValueError e)
  end.

(** The events [selector_sni_callback] adds after the lookup started. *)
Definition outcome_events (r : result SSLContext) : list event :=
  match r with
  | Ok chosen => [SwitchContext chosen]
  | Raise (ValueError e) => [LogWarning e]
  | Raise _ => []
  end.

(** The file names [CertSimple.__new__] settles on: a truthy alias wins
    over the parameter. *)
Definition resolved_cert (cert : pyval) (kw : gmap string pyval) : pyval :=
  py_or (default VNone (kw !! "certificate")) cert.

Definition resolved_key (key : pyval) (kw : gmap string pyval) : pyval :=
  py_or (default VNone (kw !! "keyfile")) key.

(** [kw] once the aliases and the password are popped and [cert] and [key]
    are set. *)
Definition renamed_kw (certfile keyfile : pyval) (kw : gmap string pyval)
    : gmap string pyval :=
  delete "password"
    (<["key" := keyfile]>
       (delete "keyfile" (<["cert" := certfile]> (delete "certificate" kw)))).

(** A platform for the examples: no certificate file decodes, every
    certificate chain loads, no path is a file, every path is readable. *)
Definition no_decoder (certfile : pyval) : result decoded_cert :=
  Raise (PlatformError 0).

Definition any_chain (certfile keyfile password : pyval) : result unit := Ok tt.

Definition no_file (p : string) : bool := false.

Definition all_readable (p : string) : bool := true.

Definition slash_join (a b : string) : string := a +:+ "/" +:+ b.

(** The test of the comprehension over [subjectAltName]:
    [t in ["DNS", "IP Address"]]. *)
Definition dns_or_ip (entry : string * string) : bool :=
  String.eqb (fst entry) "DNS" || String.eqb (fst entry) "IP Address".

(** The value of the last pair of [pairs] whose key is [k]. *)
Definition last_value (k : string) (pairs : list (string * string)) : option string :=
  match List.find (fun kv => String.eqb (fst kv) k) (rev pairs) with
  | Some kv => Some (snd kv)
  | None => None
  end.


(** A decoder for the examples: every file holds a certificate for
    [a.com], [*.b.com] and [10.0.0.1] with an e-mail entry besides. *)
Definition san_decoder (certfile : pyval) : result decoded_cert :=
  Ok {| dc_subject := [[("commonName", "a.com")]; [("names", "shadow")]];
        dc_subjectAltName :=
          Some [("DNS", "a.com"); ("email", "ops@a.com"); ("DNS", "*.b.com");
                ("IP Address", "10.0.0.1")] |}.

(** A decoder for the examples: a certificate without subjectAltName. *)
Definition no_san_decoder (certfile : pyval) : result decoded_cert :=
  Ok {| dc_subject := [[("commonName", "a.com")]];
        dc_subjectAltName := None |}.

(** A platform for the examples: the world is the list of the paths that
    exist, every directory is there, [mkcert] is installed and writes
    nothing, and the temporary directory is [/tmp/dev]. *)
Definition ex_exists (w : list string) (p : Path) : bool :=
  existsb (String.eqb (path_str p)) w.
Definition ex_joinpath (p : Path) (s : string) : Path :=
  mkPath (path_str p +:+ "/" +:+ s).
Definition ex_parent (p : Path) : Path := mkPath "".
Definition ex_dirs (w : list string) (p : Path) : outcome bool :=
  Returned (String.eqb (path_str p) "." || ex_exists w p).
Definition ex_denied (w : list string) (p : Path) : outcome bool :=
  Raised (OSError 13).
Definition ex_mkdtemp (w : list string) : list string * outcome string :=
  ("/tmp/dev" :: w, Returned "/tmp/dev").
Definition ex_run (w : list string) (cmd : list string) (io : stdio)
    : list string * outcome string :=
  (w, Returned "").
Definition ex_no_mkcert (w : list string) (cmd : list string) (io : stdio)
    : list string * outcome string :=
  (w, Raised FileNotFoundError).
Definition ex_loading (message : string)
    (block : list string -> list string * outcome string) (w : list string)
    : list string * outcome string :=
  block w.
Definition ex_write (w : list string) (s : string) : list string := w.
Definition ex_flush (w : list string) : list string := w.
Definition ex_unlink (w : list string) (p : Path) : list string * outcome unit :=
  if ex_exists w p
  then (List.filter (fun q => negb (String.eqb (path_str p) q)) w, Returned tt)
  else (w, Raised FileNotFoundError).
Definition ex_decode (w : list string) (certfile : pyval) : result decoded_cert :=
  san_decoder certfile.
Definition ex_load (w : list string) (certfile keyfile password : pyval)
    : result unit :=
  Ok tt.
Definition ex_app (key cert : tls_setting) : Sanic :=
  {| mode := DEBUG; LOCAL_TLS_KEY := key; LOCAL_TLS_CERT := cert;
     LOCALHOST := "localhost" |}.

(** What the last line of [get_ssl_context] gives for the two paths in the
    world [w]: the identity, or the exception of [CertSimple]. *)
Definition loaded_identity {World : Type}
    (decode_cert_in : World -> pyval -> result decoded_cert)
    (load_cert_chain_in : World -> pyval -> pyval -> pyval -> result unit)
    (w : World) (cert_path key_path : Path) : outcome SSLContext :=
  match CertSimple_new (decode_cert_in w) (load_cert_chain_in w)
          (VStr (path_str cert_path)) (VStr (path_str key_path)) ∅ with
  | Ok ctx => Returned ctx
  | Raise e => Raised (LoadingError e)
  end.

Definition ex_get_ssl_context :=
  get_ssl_context (list string) ex_dirs mkPath ex_joinpath ex_parent ex_mkdtemp
    ex_run ex_loading ex_write ex_flush ex_decode ex_load
    (IsStr "key.pem") (IsStr "cert.pem").

(* ===================================================================== *)
(** * Properties *)
(* ===================================================================== *)

(** ** Strings *)

Lemma eqb_true_iff (a b : string) : String.eqb a b = true <-> a = b.
Proof. apply String.eqb_eq. Qed.

Lemma startswith_spec (p s : string) :
  Str.startswith p s = true <-> exists t, s = p +:+ t.
Proof.
  revert s. induction p as [|a p IH]; intros s; simpl.
  - split; [intros _; exists s; reflexivity | reflexivity].
  - destruct s as [|b s].
    + split; [discriminate | intros [t Ht]; discriminate].
    + rewrite andb_true_iff, Ascii.eqb_eq, IH. split.
      * intros [-> [t ->]]. exists t. reflexivity.
      * intros [t Ht]. injection Ht as -> ->. split; [reflexivity | eauto].
Qed.

Lemma slice_from_app (p t : string) :
  Str.slice_from (String.length p) (p +:+ t) = t.
Proof. induction p as [|a p IH]; simpl; [destruct t; reflexivity | exact IH]. Qed.

Lemma split1_no_sep (sep : ascii) (s : string) :
  Str.contains sep s = false -> Str.split1 sep s = [s].
Proof.
  induction s as [|c s IH]; simpl; [reflexivity |].
  intros H. apply orb_false_iff in H as [Hc Hs].
  rewrite Hc, (IH Hs). reflexivity.
Qed.

Lemma split1_sep (sep : ascii) (a b : string) :
  Str.contains sep a = false ->
  Str.split1 sep (a +:+ String sep b) = [a; b].
Proof.
  induction a as [|c a IH]; simpl.
  - intros _. rewrite Ascii.eqb_refl. reflexivity.
  - intros H. apply orb_false_iff in H as [Hc Ha].
    rewrite Hc, (IH Ha). reflexivity.
Qed.

Lemma contains_split (sep : ascii) (s : string) :
  Str.contains sep s = true ->
  exists a b, Str.contains sep a = false /\ s = a +:+ String sep b.
Proof.
  induction s as [|c s IH]; simpl; [discriminate |].
  destruct (Ascii.eqb c sep) eqn:Hc; simpl.
  - intros _. apply Ascii.eqb_eq in Hc as ->.
    exists EmptyString, s. split; reflexivity.
  - intros H. destruct (IH H) as (a & b & Ha & ->).
    exists (String c a), b. simpl. rewrite Hc, Ha. split; reflexivity.
Qed.

Lemma contains_app_sep (sep : ascii) (a b : string) :
  Str.contains sep (a +:+ String sep b) = true.
Proof.
  induction a as [|c a IH]; simpl.
  - rewrite Ascii.eqb_refl. reflexivity.
  - rewrite IH. apply orb_true_r.
Qed.

Lemma after_first_contains sep s t : after_first sep s t -> Str.contains sep s = true.
Proof. intros (l & _ & ->). apply contains_app_sep. Qed.

(** [s.split(sep, 1)[-1]] is the text after the first [sep], and the whole
    of [s] when [sep] does not occur in it. *)
Lemma last_split1_spec (sep : ascii) (s t : string) :
  Str.last_item (Str.split1 sep s) = t <->
  after_first sep s t \/ (Str.contains sep s = false /\ s = t).
Proof.
  destruct (Str.contains sep s) eqn:Hs.
  - destruct (contains_split _ _ Hs) as (a & b & Ha & ->).
    rewrite (split1_sep _ _ _ Ha). unfold Str.last_item. simpl. split.
    + intros <-. left. exists a. split; [exact Ha | reflexivity].
    + intros [(l & Hl & Heq) | [Hf _]]; [| discriminate].
      assert (Hsp := split1_sep sep l t Hl). rewrite <- Heq in Hsp.
      rewrite (split1_sep _ _ _ Ha) in Hsp. congruence.
  - rewrite (split1_no_sep _ _ Hs). unfold Str.last_item. simpl. split.
    + intros <-. right. split; reflexivity.
    + intros [H | [_ H]]; [| exact H].
      apply after_first_contains in H. congruence.
Qed.

(** The string methods on the inputs the matcher meets. *)
Example split1_examples :
  Str.split1 dot "a.b.c" = ["a"; "b.c"] /\
  Str.split1 dot "abc" = ["abc"] /\
  Str.split1 dot "" = [""] /\
  Str.split1 dot ".a" = [""; "a"] /\
  Str.split1 dot "a." = ["a"; ""] /\
  Str.lower "Foo.EXAMPLE.com" = "foo.example.com" /\
  Str.slice_from 2 "*.example.com" = "example.com" /\
  Str.slice_from 2 "*." = "".
Proof. repeat split. Qed.

(** ** match_hostname *)

Lemma match_loop_true (names : list string) (hostname : string) :
  match_loop names hostname = true <->
  exists name, In name names /\ name_matches name hostname = true.
Proof.
  induction names as [|n names IH]; simpl.
  - split; [discriminate | intros (? & [] & _)].
  - destruct (name_matches n hostname) eqn:Hn.
    + split; [intros _; exists n; auto | reflexivity].
    + rewrite IH. split.
      * intros (m & Hm & Hmm). exists m. auto.
      * intros (m & [<- | Hm] & Hmm); [congruence | exists m; auto].
Qed.

Lemma match_hostname_list (ctx : SSLContext) (names : list string) (hostname : string) :
  get_names ctx = VList names ->
  match_hostname ctx hostname = Ok (match_loop names (Str.lower hostname)).
Proof. intros H. unfold match_hostname. rewrite H. reflexivity. Qed.

Lemma name_matches_wildcard (suffix hostname : string) :
  name_matches ("*." +:+ suffix) hostname = true <->
  after_first dot hostname suffix \/
  (Str.contains dot hostname = false /\ hostname = suffix).
Proof.
  unfold name_matches. simpl.
  rewrite eqb_true_iff. apply last_split1_spec.
Qed.

Lemma name_matches_plain (name hostname : string) :
  Str.startswith "*." name = false ->
  name_matches name hostname = true <-> name = hostname.
Proof. intros H. unfold name_matches. rewrite H. apply eqb_true_iff. Qed.

Lemma get_names_serving names : get_names (serving names) = VList names.
Proof. reflexivity. Qed.

(** *** C1: the wildcard rule *)

(** C1 as the specification states it fails: the entry [*.localhost]
    matches the host name [localhost], which contains no dot. *)
Lemma wildcard_matches_dotless_hostname :
  ~ (match_hostname (serving ["*.localhost"]) "localhost" = Ok true <->
     after_first dot "localhost" "localhost").
Proof.
  intros [H _].
  assert (Hm : match_hostname (serving ["*.localhost"]) "localhost" = Ok true)
    by (vm_compute; reflexivity).
  apply H, after_first_contains in Hm. vm_compute in Hm. discriminate.
Qed.

(** C1 (amended): a wildcard entry [*.<suffix>] matches a host name iff,
    after lower-casing the host name, either the portion after its first dot
    equals [<suffix>] exactly, or the host name contains no dot and equals
    [<suffix>] as a whole.  Such an entry among the served names makes
    [match_hostname] answer true, and when it is the only served name
    [match_hostname] answers true exactly under that rule.  For the served
    name [*.example.com] the answer is true for [foo.example.com] and false
    for [example.com], [foo.bar.example.com] and [evilexample.com]. *)
Theorem wildcard_entry_match :
  (forall (ctx : SSLContext) (names : list string) (suffix hostname : string),
      get_names ctx = VList names ->
      (name_matches ("*." +:+ suffix) (Str.lower hostname) = true <->
       wildcard_rule suffix (Str.lower hostname)) /\
      (In ("*." +:+ suffix) names ->
       wildcard_rule suffix (Str.lower hostname) ->
       match_hostname ctx hostname = Ok true) /\
      (names = ["*." +:+ suffix] ->
       (match_hostname ctx hostname = Ok true <->
        wildcard_rule suffix (Str.lower hostname)))) /\
  match_hostname (serving ["*.example.com"]) "foo.example.com" = Ok true /\
  match_hostname (serving ["*.example.com"]) "example.com" = Ok false /\
  match_hostname (serving ["*.example.com"]) "foo.bar.example.com" = Ok false /\
  match_hostname (serving ["*.example.com"]) "evilexample.com" = Ok false.
Proof.
  split; [| repeat split; vm_compute; reflexivity].
  intros ctx names suffix hostname Hnames.
  pose proof (name_matches_wildcard suffix (Str.lower hostname)) as Hw.
  fold (wildcard_rule suffix (Str.lower hostname)) in Hw.
  split; [exact Hw |]. split.
  - intros Hin Hrule. rewrite (match_hostname_list _ _ _ Hnames). f_equal.
    apply match_loop_true. exists ("*." +:+ suffix). split; [exact Hin |].
    apply Hw, Hrule.
  - intros ->. rewrite (match_hostname_list _ _ _ Hnames).
    rewrite <- Hw. cbn [match_loop].
    destruct (name_matches ("*." +:+ suffix) (Str.lower hostname)); split;
      congruence.
Qed.

Lemma wildcard_entry_match_witness :
  match_hostname (serving ["*.example.com"]) "Foo.Example.COM" = Ok true.
Proof.
  destruct wildcard_entry_match as [H _].
  destruct (H (serving ["*.example.com"]) ["*.example.com"] "example.com"
              "Foo.Example.COM" eq_refl) as (_ & Hin & _).
  apply Hin.
  - simpl. left. reflexivity.
  - left. exists "foo". split; vm_compute; reflexivity.
Defined.

(** *** C2: names without wildcards *)

(** C2 as the specification states it fails: the served names are compared
    as they are stored, so [Example.com] does not serve [example.com]
    although the two are equal once both are lower-cased. *)
Lemma served_names_are_not_case_folded :
  no_wildcard ["Example.com"] /\
  ~ (match_hostname (serving ["Example.com"]) "example.com" = Ok true <->
     In (Str.lower "example.com") (map Str.lower ["Example.com"])).
Proof.
  split.
  - repeat constructor.
  - intros [_ H].
    assert (Hin : In (Str.lower "example.com") (map Str.lower ["Example.com"]))
      by (left; vm_compute; reflexivity).
    apply H in Hin. vm_compute in Hin. discriminate.
Qed.

(** C2 (amended): for served names without wildcard entries,
    [match_hostname] answers true iff the lower-cased host name is, exactly
    and as stored, one of the served names; only the requested host name is
    lower-cased, the served names are not. *)
Theorem exact_match_iff_lowered_hostname_served
    (ctx : SSLContext) (names : list string) (hostname : string) :
  get_names ctx = VList names ->
  no_wildcard names ->
  match_hostname ctx hostname = Ok true <-> In (Str.lower hostname) names.
Proof.
  intros Hnames Hnw. rewrite (match_hostname_list _ _ _ Hnames).
  assert (Hiff : match_loop names (Str.lower hostname) = true <->
                 In (Str.lower hostname) names).
  { rewrite match_loop_true. unfold no_wildcard in Hnw.
    rewrite List.Forall_forall in Hnw. split.
    - intros (n & Hin & Hm).
      apply (name_matches_plain _ _ (Hnw n Hin)) in Hm. subst n. exact Hin.
    - intros Hin. exists (Str.lower hostname). split; [exact Hin |].
      apply (name_matches_plain _ _ (Hnw _ Hin)). reflexivity. }
  rewrite <- Hiff. split; [intros [= ->]; reflexivity | intros ->; reflexivity].
Qed.

Lemma exact_match_iff_lowered_hostname_served_witness :
  match_hostname (serving ["example.com"; "10.0.0.1"]) "EXAMPLE.com" = Ok true.
Proof.
  apply (exact_match_iff_lowered_hostname_served
           (serving ["example.com"; "10.0.0.1"]) ["example.com"; "10.0.0.1"]).
  - reflexivity.
  - repeat constructor.
  - left. vm_compute. reflexivity.
Defined.

(** ** CertSelector.__init__ *)

Lemma init_loop_eq (ctxs : list (option SSLContext)) :
  forall (i : nat) (self : CertSelector) (all_names : list string),
    init_loop i ctxs self all_names =
    let! names := all_served_names (surviving ctxs) in
    Ok ({| sanic_select := sanic_select self ++ surviving ctxs;
           sanic_fallback :=
             match i with
             | O => match first_given ctxs with
                    | Some ctx => Some ctx
                    | None => sanic_fallback self
                    end
             | S _ => sanic_fallback self
             end |},
        all_names ++ names).
Proof.
  induction ctxs as [|[ctx|] rest IH]; intros i self all_names.
  - simpl. rewrite !app_nil_r. destruct self, i; reflexivity.
  - cbn [init_loop surviving all_served_names first_given].
    unfold served_names. destruct (iterate (get_names ctx)) as [names|e];
      [| reflexivity].
    cbn [bind]. rewrite IH.
    destruct (all_served_names (surviving rest)) as [more|e]; [| reflexivity].
    cbn [bind]. f_equal. f_equal.
    + destruct i; cbn; rewrite <- app_assoc; reflexivity.
    + rewrite app_assoc. reflexivity.
  - cbn [init_loop surviving first_given]. rewrite IH.
    destruct (all_served_names (surviving rest)) as [more|e]; [| reflexivity].
    cbn [bind]. destruct i; reflexivity.
Qed.

Lemma CertSelector_init_eq (ctxs : list (option SSLContext)) :
  CertSelector_init ctxs =
  let! names := all_served_names (surviving ctxs) in
  match names with
  | [] => Raise (ValueError NoCertificatesWithNames)
  | _ :: _ => Ok {| sanic_select := surviving ctxs;
                    sanic_fallback := first_given ctxs |}
  end.
Proof.
  unfold CertSelector_init. rewrite init_loop_eq.
  destruct (all_served_names (surviving ctxs)) as [names|e]; [| reflexivity].
  cbn. destruct names; [reflexivity |].
  destruct (first_given ctxs); reflexivity.
Qed.

Lemma all_served_names_has_names (entries : list SSLContext) (names : list string) :
  all_served_names entries = Ok names -> Forall has_names entries.
Proof.
  revert names. induction entries as [|ctx rest IH]; intros names H.
  - constructor.
  - cbn in H. destruct (served_names ctx) as [ns|] eqn:Hns; [| discriminate].
    destruct (all_served_names rest) as [more|] eqn:Hmore; [| discriminate].
    constructor; [exists ns; exact Hns | eapply IH; reflexivity].
Qed.

Lemma has_names_all_served_names (entries : list SSLContext) :
  Forall has_names entries -> exists names, all_served_names entries = Ok names.
Proof.
  induction 1 as [|ctx rest [ns Hns] _ [more Hmore]].
  - exists []. reflexivity.
  - exists (ns ++ more). cbn. rewrite Hns, Hmore. reflexivity.
Qed.




Lemma init_ok_inv (ctxs : list (option SSLContext)) (self : CertSelector) :
  CertSelector_init ctxs = Ok self ->
  sanic_select self = surviving ctxs /\
  sanic_fallback self = first_given ctxs /\
  Forall has_names (sanic_select self).
Proof.
  rewrite CertSelector_init_eq.
  destruct (all_served_names (surviving ctxs)) as [names|e] eqn:Hn; [| discriminate].
  cbn. destruct names; [discriminate |]. intros [= <-]. cbn.
  repeat split. eapply all_served_names_has_names, Hn.
Qed.

(** ** find_cert *)

Lemma has_names_match (ctx : SSLContext) (name : string) :
  has_names ctx -> exists b, match_hostname ctx name = Ok b.
Proof.
  intros [ns Hns]. unfold match_hostname. unfold served_names in Hns.
  rewrite Hns. eexists. reflexivity.
Qed.

(** The scan stops at the first context that matches, if there is one. *)
Lemma find_loop_spec (entries : list SSLContext) (name : string) :
  Forall has_names entries ->
  (exists pre ctx post,
      entries = pre ++ ctx :: post /\ Forall (no_match name) pre /\
      match_hostname ctx name = Ok true /\
      find_loop entries name = Ok (Some ctx)) \/
  (Forall (no_match name) entries /\ find_loop entries name = Ok None).
Proof.
  induction 1 as [|c rest Hc _ IH].
  - right. split; [constructor | reflexivity].
  - destruct (has_names_match c name Hc) as [[|] Hm].
    + left. exists [], c, rest. cbn. rewrite Hm. repeat split. constructor.
    + destruct IH as [(pre & ctx & post & -> & Hpre & Hctx & Hfind) | [Hall Hfind]].
      * left. exists (c :: pre), ctx, post. cbn. rewrite Hm. cbn.
        repeat split; [constructor; assumption | assumption | assumption].
      * right. cbn. rewrite Hm. cbn. split; [constructor; assumption | assumption].
Qed.

(** *** C3: selection *)

(** C3: for every constructed selector and every SNI value.  When the SNI is
    absent ([None], or the empty string, which the code treats alike)
    [find_cert] returns the fallback when one is set and otherwise raises
    the no-SNI error.  When the SNI is present the entries are scanned in
    registration order and the first one whose served names match is
    returned; when no entry matches, the fallback is returned when one is
    set and otherwise the error naming the SNI is raised. *)
Theorem find_cert_selects
    (ctxs : list (option SSLContext)) (self : CertSelector)
    (server_name : option string) :
  CertSelector_init ctxs = Ok self ->
  match server_name with
  | None | Some EmptyString =>
      find_cert self server_name = fallback_or self NoSNIProvided
  | Some name =>
      (exists pre ctx post,
          sanic_select self = pre ++ ctx :: post /\
          Forall (no_match name) pre /\
          match_hostname ctx name = Ok true /\
          find_cert self server_name = Ok ctx) \/
      (Forall (no_match name) (sanic_select self) /\
       find_cert self server_name =
       fallback_or self (NoCertificateMatching name))
  end.
Proof.
  intros Hinit. apply init_ok_inv in Hinit as (_ & _ & Hnames).
  destruct server_name as [[|c name]|]; [reflexivity | | reflexivity].
  destruct (find_loop_spec (sanic_select self) (String c name) Hnames)
    as [(pre & ctx & post & Heq & Hpre & Hctx & Hfind) | [Hall Hfind]].
  - left. exists pre, ctx, post. repeat split; try assumption.
    unfold find_cert. rewrite Hfind. reflexivity.
  - right. split; [assumption |].
    unfold find_cert. rewrite Hfind. reflexivity.
Qed.

Lemma find_cert_selects_witness :
  let A := serving ["x.com"] in
  let B := serving ["*.y.com"] in
  let self := {| sanic_select := [A; B]; sanic_fallback := Some A |} in
  (exists pre ctx post,
      sanic_select self = pre ++ ctx :: post /\
      Forall (no_match "www.y.com") pre /\
      match_hostname ctx "www.y.com" = Ok true /\
      find_cert self (Some "www.y.com") = Ok ctx) \/
  (Forall (no_match "www.y.com") (sanic_select self) /\
   find_cert self (Some "www.y.com") =
   fallback_or self (NoCertificateMatching "www.y.com")).
Proof.
  intros A B self.
  apply (find_cert_selects [Some A; None; Some B] self (Some "www.y.com")).
  vm_compute. reflexivity.
Defined.

(** *** C4: construction keeps the order and takes the fallback from index 0 *)

(** C4: construction goes through the whole list given: an entry that is
    [None] is passed over, the others are kept in the order given, and the
    fallback is the element at index 0 of the list given when that element
    is not [None] and is unset otherwise (never a later entry).  It
    returns that selector whenever the names of the entries kept, taken
    together, are not empty.  With the entries [[A; B]], where [A] serves
    [x.com] and [B] serves [y.com], selection gives [A] for [x.com], [B]
    for [y.com], [A] for [z.com] and [A] for an absent SNI; with a [None]
    in front of them and between them the entries are [[A; B]] all the
    same and there is no fallback. *)
Theorem init_keeps_order_and_first_is_fallback :
  (forall ctxs : list (option SSLContext),
      CertSelector_init ctxs =
      let! names := all_served_names (surviving ctxs) in
      match names with
      | [] => Raise (ValueError NoCertificatesWithNames)
      | _ :: _ => Ok {| sanic_select := surviving ctxs;
                        sanic_fallback := first_given ctxs |}
      end) /\
  (forall (ctxs : list (option SSLContext)) (self : CertSelector),
      CertSelector_init ctxs = Ok self ->
      sanic_select self = surviving ctxs /\
      sanic_fallback self = first_given ctxs /\
      (forall ctx, sanic_fallback self = Some ctx <-> ctxs !! 0%nat = Some (Some ctx))) /\
  (forall A B : SSLContext,
      get_names A = VList ["x.com"] ->
      get_names B = VList ["y.com"] ->
      exists self,
        CertSelector_init [Some A; Some B] = Ok self /\
        sanic_select self = [A; B] /\
        sanic_fallback self = Some A /\
        find_cert self (Some "x.com") = Ok A /\
        find_cert self (Some "y.com") = Ok B /\
        find_cert self (Some "z.com") = Ok A /\
        find_cert self None = Ok A) /\
  (forall A B : SSLContext,
      get_names A = VList ["x.com"] ->
      get_names B = VList ["y.com"] ->
      CertSelector_init [Some A; None; Some B]
      = Ok {| sanic_select := [A; B]; sanic_fallback := Some A |} /\
      exists self,
        CertSelector_init [None; Some A; None; Some B] = Ok self /\
        sanic_select self = [A; B] /\
        sanic_fallback self = None /\
        find_cert self (Some "x.com") = Ok A /\
        find_cert self (Some "y.com") = Ok B /\
        find_cert self (Some "z.com")
        = Raise (ValueError (NoCertificateMatching "z.com")) /\
        find_cert self None = Raise (ValueError NoSNIProvided)).
Proof.
  split; [exact CertSelector_init_eq |]. split; [| split].
  - intros ctxs self Hinit.
    apply init_ok_inv in Hinit as (Hsel & Hfb & _).
    repeat split; try assumption.
    + rewrite Hfb. destruct ctxs as [|[c|] rest]; cbn; congruence.
    + rewrite Hfb. destruct ctxs as [|[c|] rest]; cbn; congruence.
  - intros A B HA HB.
    exists {| sanic_select := [A; B]; sanic_fallback := Some A |}.
    split.
    { rewrite CertSelector_init_eq. cbn. unfold served_names.
      rewrite HA, HB. reflexivity. }
    unfold find_cert. cbn.
    rewrite !(match_hostname_list _ _ _ HA), !(match_hostname_list _ _ _ HB).
    repeat split.
  - intros A B HA HB. split.
    { rewrite CertSelector_init_eq. cbn. unfold served_names.
      rewrite HA, HB. reflexivity. }
    exists {| sanic_select := [A; B]; sanic_fallback := None |}.
    split.
    { rewrite CertSelector_init_eq. cbn. unfold served_names.
      rewrite HA, HB. reflexivity. }
    unfold find_cert. cbn.
    rewrite !(match_hostname_list _ _ _ HA), !(match_hostname_list _ _ _ HB).
    repeat split.
Qed.

Lemma init_keeps_order_and_first_is_fallback_witness :
  let A := serving ["x.com"] in
  let B := serving ["y.com"] in
  CertSelector_init [Some A; None; Some B]
  = Ok {| sanic_select := [A; B]; sanic_fallback := Some A |} /\
  (exists self,
      CertSelector_init [None; Some A; None; Some B] = Ok self /\
      sanic_select self = [A; B] /\
      sanic_fallback self = None /\
      find_cert self None = Raise (ValueError NoSNIProvided)) /\
  (exists self,
      CertSelector_init [Some A; Some B] = Ok self /\
      find_cert self (Some "z.com") = Ok A).
Proof.
  intros A B.
  destruct (proj2 (proj2 (proj2 init_keeps_order_and_first_is_fallback)) A B
              eq_refl eq_refl)
    as (Hmid & self & Hinit & Hsel & Hfb & _ & _ & _ & Hnone).
  split; [exact Hmid |]. split.
  - exists self. repeat split; assumption.
  - destruct (proj1 (proj2 (proj2 init_keeps_order_and_first_is_fallback)) A B
                eq_refl eq_refl)
      as (self' & Hinit' & _ & _ & _ & _ & Hz & _).
    exists self'. split; [exact Hinit' | exact Hz].
Defined.

(** *** C5: construction fails exactly without served names *)




(** *** C9: the empty SNI *)

(** C9: an empty-string SNI is treated as an absent one.  For every
    selector, [find_cert] on the empty string returns the fallback when one
    is set and raises the no-SNI error otherwise; the entries are not
    consulted: the answer is the same for any other list of entries, also
    when an entry serves the empty string, and also when scanning an entry
    would raise. *)
Theorem find_cert_empty_sni_is_absent (self : CertSelector) :
  find_cert self (Some "") = find_cert self None /\
  find_cert self (Some "") = fallback_or self NoSNIProvided /\
  (forall entries : list SSLContext,
      find_cert {| sanic_select := entries;
                   sanic_fallback := sanic_fallback self |} (Some "")
      = find_cert self (Some "")) /\
  (forall fallback : SSLContext,
      find_cert {| sanic_select := [serving [""]];
                   sanic_fallback := Some fallback |} (Some "") = Ok fallback) /\
  find_cert {| sanic_select := [serving [""]]; sanic_fallback := None |} (Some "")
  = Raise (ValueError NoSNIProvided) /\
  match_hostname (serving [""]) "" = Ok true.
Proof. repeat split. Qed.

(** ** The callbacks *)

Lemma selector_sni_callback_trace (h : handshake) (server_name : option string)
    (ctx : CertSelector) :
  trace (fst (selector_sni_callback h server_name ctx)) =
  trace h ++ StoreServerName server_name :: FindCert server_name ::
  outcome_events (find_cert ctx server_name).
Proof.
  unfold selector_sni_callback.
  destruct (find_cert ctx server_name) as [chosen|[]]; cbn;
    rewrite <- ?app_assoc; reflexivity.
Qed.

Lemma selector_sni_callback_result (h : handshake) (server_name : option string)
    (ctx : CertSelector) :
  snd (selector_sni_callback h server_name ctx) =
  match find_cert ctx server_name with
  | Ok _ => Ok None
  | Raise (ValueError _) => Ok (Some ALERT_DESCRIPTION_UNRECOGNIZED_NAME)
  | Raise e => Raise e
  end.
Proof.
  unfold selector_sni_callback.
  destruct (find_cert ctx server_name) as [chosen|[]]; reflexivity.
Qed.

Lemma selector_sni_callback_context (h : handshake) (server_name : option string)
    (ctx : CertSelector) :
  context (sslobj (fst (selector_sni_callback h server_name ctx))) =
  match find_cert ctx server_name with
  | Ok chosen => Switched chosen
  | Raise _ => context (sslobj h)
  end.
Proof.
  unfold selector_sni_callback.
  destruct (find_cert ctx server_name) as [chosen|[]]; reflexivity.
Qed.

(** *** C6: the SNI is recorded first, whatever the outcome *)

(** C6: every call of the selecting callback stores the raw SNI value on the
    handshake object, and does so before the certificate lookup starts: the
    store is the first effect of the call, the lookup the second.  The value
    is stored on every path: when a certificate is selected (by a match or
    as the fallback), when the connection is rejected with the
    unrecognized-name alert, and when an exception escapes.  The plain
    callback of a single context stores it as well. *)
Theorem sni_recorded_before_lookup (h : handshake) (server_name : option string)
    (ctx : CertSelector) :
  let out := selector_sni_callback h server_name ctx in
  sanic_server_name (sslobj (fst out)) = Some server_name /\
  trace (fst out) =
    trace h ++ StoreServerName server_name :: FindCert server_name ::
    outcome_events (find_cert ctx server_name) /\
  match find_cert ctx server_name with
  | Ok chosen =>
      snd out = Ok None /\ context (sslobj (fst out)) = Switched chosen
  | Raise (ValueError e) =>
      snd out = Ok (Some ALERT_DESCRIPTION_UNRECOGNIZED_NAME) /\
      context (sslobj (fst out)) = context (sslobj h)
  | Raise e =>
      snd out = Raise e /\ context (sslobj (fst out)) = context (sslobj h)
  end /\
  sanic_server_name (sslobj (server_name_callback h server_name))
    = Some server_name /\
  trace (server_name_callback h server_name)
    = trace h ++ [StoreServerName server_name].
Proof.
  cbv zeta. split; [| split; [apply selector_sni_callback_trace | split]].
  - unfold selector_sni_callback.
    destruct (find_cert ctx server_name) as [chosen|[]]; reflexivity.
  - unfold selector_sni_callback.
    destruct (find_cert ctx server_name) as [chosen|[]]; split; reflexivity.
  - split; reflexivity.
Qed.

(** *** C8: selection is deterministic *)

(** C8: for a fixed selector and SNI value, any two calls select the same
    identity, or fail with the same error.  The lookup reads the selector
    and the SNI and nothing else: two calls of the callback on any two
    handshakes, in whatever state, return the same value, perform the same
    effects (the same context switched to, or the same error logged) and
    leave the same context selected; so does a second call on the handshake
    the first call left behind. *)
Theorem selection_is_deterministic (self : CertSelector)
    (server_name : option string) (h1 h2 : handshake) :
  let out1 := selector_sni_callback h1 server_name self in
  let out2 := selector_sni_callback h2 server_name self in
  let again := selector_sni_callback (fst out1) server_name self in
  snd out1 = snd out2 /\
  snd again = snd out1 /\
  (exists effects,
      trace (fst out1) = trace h1 ++ effects /\
      trace (fst out2) = trace h2 ++ effects /\
      trace (fst again) = trace (fst out1) ++ effects) /\
  match find_cert self server_name with
  | Ok chosen =>
      context (sslobj (fst out1)) = Switched chosen /\
      context (sslobj (fst out2)) = Switched chosen /\
      context (sslobj (fst again)) = Switched chosen
  | Raise e =>
      context (sslobj (fst out1)) = context (sslobj h1) /\
      context (sslobj (fst out2)) = context (sslobj h2) /\
      context (sslobj (fst again)) = context (sslobj h1)
  end.
Proof.
  cbv zeta. rewrite !selector_sni_callback_result. repeat split.
  - eexists. rewrite !selector_sni_callback_trace. repeat split.
  - rewrite !selector_sni_callback_context.
    destruct (find_cert self server_name); repeat split.
Qed.

(** ** CertSimple *)

Ltac lookup_kw :=
  unfold renamed_kw;
  repeat (rewrite lookup_insert || rewrite lookup_delete);
  repeat case_decide; try congruence; try reflexivity.

Lemma renamed_kw_other (certfile keyfile : pyval) (kw : gmap string pyval) (k : string) :
  k <> "cert" -> k <> "key" -> k <> "certificate" -> k <> "keyfile" ->
  k <> "password" ->
  renamed_kw certfile keyfile kw !! k = kw !! k.
Proof. intros. lookup_kw. Qed.

Lemma renamed_kw_cert certfile keyfile (kw : gmap string pyval) :
  renamed_kw certfile keyfile kw !! "cert" = Some certfile.
Proof. lookup_kw. Qed.

Lemma renamed_kw_key certfile keyfile (kw : gmap string pyval) :
  renamed_kw certfile keyfile kw !! "key" = Some keyfile.
Proof. lookup_kw. Qed.

Lemma renamed_kw_dom certfile keyfile (kw : gmap string pyval) (k : string) :
  is_Some (renamed_kw certfile keyfile kw !! k) ->
  k = "cert" \/ k = "key" \/ is_Some (kw !! k).
Proof.
  unfold renamed_kw.
  repeat (rewrite lookup_insert || rewrite lookup_delete).
  repeat case_decide; subst; auto; intros [? ?]; congruence.
Qed.

Section LoadingProperties.

Variable decode_cert : pyval -> result decoded_cert.
Variable load_cert_chain : pyval -> pyval -> pyval -> result unit.

(** [CertSimple.__new__] in terms of the resolved file names and the
    renamed keyword arguments. *)
Lemma CertSimple_new_eq (cert key : pyval) (kw : gmap string pyval) :
  CertSimple_new decode_cert load_cert_chain cert key kw =
  let certfile := resolved_cert cert kw in
  let keyfile := resolved_key key kw in
  let password := default VNone (kw !! "password") in
  let kw' := renamed_kw certfile keyfile kw in
  if negb (truthy certfile) || negb (truthy keyfile) then
    Raise (ValueError NeedsFilenames)
  else
    let! sk :=
      match kw' !! "names" with
      | None =>
          let! cert := decode_cert certfile in
          let! san :=
            match dc_subjectAltName cert with
            | Some san => Ok san
            | None => Raise (KeyError "subjectAltName")
            end in
          Ok (subject_dict (dc_subject cert),
              <["names" := VList (san_names san)]> kw')
      | Some _ => Ok (∅, kw')
      end in
    let! self := create_context load_cert_chain certfile keyfile password in
    Ok {| minimum_version := minimum_version self;
          ciphers := ciphers self;
          alpn_protocols := alpn_protocols self;
          sni_callback := sni_callback self;
          cert_chain := cert_chain self;
          sanic := Some (snd sk ∪ fst sk) |}.
Proof.
  unfold CertSimple_new. cbv zeta.
  replace (<["cert":=py_or (default VNone (kw !! "certificate")) cert]>
             (delete "certificate" kw) !! "keyfile") with (kw !! "keyfile")
    by lookup_kw.
  fold (resolved_cert cert kw). fold (resolved_key key kw).
  replace (<["key":=resolved_key key kw]>
             (delete "keyfile"
                (<["cert":=resolved_cert cert kw]> (delete "certificate" kw)))
           !! "password") with (kw !! "password") by lookup_kw.
  reflexivity.
Qed.


Lemma CertSimple_new_ok_inv (cert key : pyval) (kw : gmap string pyval)
    (self : SSLContext) :
  CertSimple_new decode_cert load_cert_chain cert key kw = Ok self ->
  let certfile := resolved_cert cert kw in
  let keyfile := resolved_key key kw in
  let kw' := renamed_kw certfile keyfile kw in
  truthy certfile = true /\ truthy keyfile = true /\
  load_cert_chain certfile keyfile (default VNone (kw !! "password")) = Ok tt /\
  cert_chain self = Some (certfile, keyfile, default VNone (kw !! "password")) /\
  exists attrs,
    sanic self = Some attrs /\
    match kw' !! "names" with
    | Some _ => attrs = kw'
    | None =>
        exists dc san,
          decode_cert certfile = Ok dc /\ dc_subjectAltName dc = Some san /\
          attrs = <["names" := VList (san_names san)]> kw'
                  ∪ subject_dict (dc_subject dc)
    end.
Proof.
  rewrite CertSimple_new_eq. cbv zeta.
  destruct (truthy (resolved_cert cert kw)) eqn:Hc; [| discriminate].
  destruct (truthy (resolved_key key kw)) eqn:Hk; [| discriminate].
  cbn [negb orb]. intros H. split; [reflexivity |]. split; [reflexivity |].
  unfold create_context in H. rewrite Hc, Hk in H. cbn [andb] in H.
  destruct (renamed_kw (resolved_cert cert kw) (resolved_key key kw) kw !! "names")
    as [v|] eqn:Hn.
  - cbn [bind] in H.
    destruct (load_cert_chain _ _ _) as [[]|] eqn:Hl; [| discriminate].
    cbn in H. injection H as <-. cbn.
    repeat split. eexists. split; [reflexivity |].
    apply (right_id_L ∅ (∪)).
  - destruct (decode_cert (resolved_cert cert kw)) as [dc|] eqn:Hd;
      [| discriminate].
    cbn [bind] in H.
    destruct (dc_subjectAltName dc) as [san|] eqn:Hsan; [| discriminate].
    cbn [bind] in H.
    destruct (load_cert_chain _ _ _) as [[]|] eqn:Hl; [| discriminate].
    cbn in H. injection H as <-. cbn.
    repeat split. eexists. split; [reflexivity |].
    exists dc, san. repeat split. exact Hsan.
Qed.

Lemma CertSimple_new_attrs (cert key : pyval) (kw : gmap string pyval)
    (self : SSLContext) :
  CertSimple_new decode_cert load_cert_chain cert key kw = Ok self ->
  exists attrs,
    sanic self = Some attrs /\
    attrs !! "cert" = Some (resolved_cert cert kw) /\
    attrs !! "key" = Some (resolved_key key kw).
Proof.
  intros H. apply CertSimple_new_ok_inv in H as (_ & _ & _ & _ & attrs & Hs & Ha).
  exists attrs. split; [exact Hs |].
  destruct (renamed_kw _ _ kw !! "names").
  - subst attrs. split; [apply renamed_kw_cert | apply renamed_kw_key].
  - destruct Ha as (dc & san & _ & _ & ->).
    split; apply lookup_union_Some_l; rewrite lookup_insert_ne by discriminate;
      [apply renamed_kw_cert | apply renamed_kw_key].
Qed.


(** *** C7: identity construction needs both file names *)


End LoadingProperties.


(** A mapping that gives the aliases alone does not reach
    [CertSimple.__new__]: [cert] and [key] are required parameters. *)
Example alias_only_mapping_raises_TypeError :
  shorthand_to_ctx no_decoder any_chain no_file all_readable slash_join
    (DDict (<["certificate" := VStr "c.pem"]> {["keyfile" := VStr "k.pem"]}))
  = Raise TypeError.
Proof. vm_compute. reflexivity. Qed.

(** A key [cls] or [self] of the mapping collides with the first
    parameter of [__new__] or of [__init__]. *)
Example mapping_with_cls_or_self_raises_TypeError :
  shorthand_to_ctx no_decoder any_chain no_file all_readable slash_join
    (DDict (<["cls" := VNone]>
              (<["cert" := VStr "c.pem"]> {["key" := VStr "k.pem"]})))
  = Raise TypeError /\
  shorthand_to_ctx no_decoder any_chain no_file all_readable slash_join
    (DDict (<["self" := VNone]>
              (<["cert" := VStr "c.pem"]>
                 (<["key" := VStr "k.pem"]> {["names" := VList ["a.com"]]}))))
  = Raise TypeError.
Proof. split; vm_compute; reflexivity. Qed.


(** *** C10: explicit names *)

(** C10: when the keyword arguments hold [names], the certificate file is
    not decoded: the outcome is the same whatever decoding would do.  The
    identity's served names are the ones supplied, and its attributes are
    the keyword arguments with the aliases and the password removed and
    [cert] and [key] set to the resolved file names; they hold no key
    besides [cert], [key] and the keys supplied.  The identity is built as
    soon as both file names are present and the platform accepts the
    certificate chain. *)
Theorem explicit_names_skip_decoding
    (decode_cert : pyval -> result decoded_cert)
    (load_cert_chain : pyval -> pyval -> pyval -> result unit)
    (cert key : pyval) (kw : gmap string pyval) (names : pyval) :
  kw !! "names" = Some names ->
  let certfile := resolved_cert cert kw in
  let keyfile := resolved_key key kw in
  let password := default VNone (kw !! "password") in
  (forall decode' : pyval -> result decoded_cert,
      CertSimple_new decode' load_cert_chain cert key kw
      = CertSimple_new decode_cert load_cert_chain cert key kw) /\
  (forall self,
      CertSimple_new decode_cert load_cert_chain cert key kw = Ok self ->
      get_names self = names /\
      served_names self = iterate names /\
      sanic self = Some (renamed_kw certfile keyfile kw) /\
      (forall k, is_Some (renamed_kw certfile keyfile kw !! k) ->
                 k = "cert" \/ k = "key" \/ is_Some (kw !! k))) /\
  (truthy certfile = true -> truthy keyfile = true ->
   load_cert_chain certfile keyfile password = Ok tt ->
   exists self,
     CertSimple_new decode_cert load_cert_chain cert key kw = Ok self).
Proof.
  intros Hn. cbv zeta.
  assert (Hn' : renamed_kw (resolved_cert cert kw) (resolved_key key kw) kw
                !! "names" = Some names)
    by (rewrite renamed_kw_other by discriminate; exact Hn).
  split; [| split].
  - intros decode'. rewrite !CertSimple_new_eq. cbv zeta.
    rewrite Hn'. reflexivity.
  - intros self Hnew.
    apply CertSimple_new_ok_inv in Hnew as (_ & _ & _ & _ & attrs & Hs & Ha).
    cbv zeta in Ha. rewrite Hn' in Ha. subst attrs.
    assert (Hg : get_names self = names)
      by (unfold get_names; rewrite Hs, Hn'; reflexivity).
    repeat split.
    + exact Hg.
    + unfold served_names. rewrite Hg. reflexivity.
    + exact Hs.
    + apply renamed_kw_dom.
  - intros Tc Tk Hload. rewrite CertSimple_new_eq. cbv zeta.
    rewrite Tc, Tk, Hn'. cbn [negb orb bind].
    unfold create_context. rewrite Tc, Tk. cbn [andb].
    rewrite Hload. cbn [bind]. eexists. reflexivity.
Qed.

Lemma explicit_names_skip_decoding_witness :
  let kw : gmap string pyval :=
    <["names" := VList ["a.com"; "*.b.com"]]>
      (<["password" := VStr "secret"]> {["owner" := VStr "ops"]}) in
  exists self,
    CertSimple_new no_decoder any_chain (VStr "c.pem") (VStr "k.pem") kw = Ok self /\
    served_names self = Ok ["a.com"; "*.b.com"].
Proof.
  intros kw.
  assert (Hn : kw !! "names" = Some (VList ["a.com"; "*.b.com"]))
    by (vm_compute; reflexivity).
  destruct (explicit_names_skip_decoding no_decoder any_chain (VStr "c.pem")
              (VStr "k.pem") kw _ Hn) as (_ & Hinv & Hok).
  destruct Hok as [self Hself]; [reflexivity | reflexivity | reflexivity |].
  exists self. split; [exact Hself |].
  destruct (Hinv self Hself) as (_ & Hserved & _). exact Hserved.
Defined.

(* ===================================================================== *)
(** * Further properties of the code *)
(* ===================================================================== *)

(** ** The matcher *)

Lemma lower_ascii_idem (c : ascii) :
  Str.lower_ascii (Str.lower_ascii c) = Str.lower_ascii c.
Proof. destruct c as [[] [] [] [] [] [] [] []]; reflexivity. Qed.

Lemma lower_idem (s : string) : Str.lower (Str.lower s) = Str.lower s.
Proof.
  induction s as [|c s IH]; simpl; [reflexivity |].
  rewrite lower_ascii_idem, IH. reflexivity.
Qed.

Lemma lower_app (a b : string) :
  Str.lower (a +:+ b) = Str.lower a +:+ Str.lower b.
Proof. induction a as [|c a IH]; simpl; [reflexivity | rewrite IH; reflexivity]. Qed.

Lemma split1_lower_parts (sep : ascii) (s : string) :
  Str.lower s = s ->
  Forall (fun part => Str.lower part = part) (Str.split1 sep s).
Proof.
  induction s as [|c s IH]; simpl.
  - intros _. repeat constructor.
  - intros [= Hc Hs]. destruct (Ascii.eqb c sep).
    + repeat constructor. exact Hs.
    + specialize (IH Hs). destruct (Str.split1 sep s) as [|hd tl].
      * repeat constructor. simpl. rewrite Hc. reflexivity.
      * inversion IH as [|? ? Hhd Htl]; subst. constructor; [| exact Htl].
        simpl. rewrite Hc, Hhd. reflexivity.
Qed.

Lemma last_item_lower (l : list string) :
  Forall (fun part => Str.lower part = part) l ->
  Str.lower (Str.last_item l) = Str.last_item l.
Proof.
  unfold Str.last_item. induction 1 as [|x l Hx Hl IH]; [reflexivity |].
  destruct l; [exact Hx | exact IH].
Qed.

(** X1: a served name that is not written in lower case is dead: whatever
    the host name, an entry that matches it is equal to its own lower-cased
    form, and removing the entries that are not leaves every answer
    unchanged. *)
Theorem only_lowercase_names_match :
  (forall name hostname : string,
      name_matches name (Str.lower hostname) = true ->
      Str.lower name = name) /\
  (forall names hostname,
      match_loop
        (List.filter (fun name => String.eqb (Str.lower name) name) names)
        (Str.lower hostname)
      = match_loop names (Str.lower hostname)).
Proof.
  assert (H1 : forall name hostname : string,
             name_matches name (Str.lower hostname) = true ->
             Str.lower name = name).
  { intros name hostname. unfold name_matches.
    destruct (Str.startswith "*." name) eqn:Hw.
    - apply startswith_spec in Hw as [suffix ->]. simpl.
      rewrite eqb_true_iff. intros Hs.
      change (Str.last_item (Str.split1 dot (Str.lower hostname)) = suffix) in Hs.
      change (String "*" (String "." (Str.lower suffix))
              = String "*" (String "." suffix)).
      do 2 f_equal. rewrite <- Hs.
      apply last_item_lower, split1_lower_parts, lower_idem.
    - rewrite eqb_true_iff. intros ->. apply lower_idem. }
  split; [exact H1 |].
  intros names hostname. induction names as [|n names IH]; [reflexivity |].
  cbn [List.filter match_loop]. destruct (String.eqb (Str.lower n) n) eqn:Hn.
  - cbn [match_loop]. rewrite IH. reflexivity.
  - rewrite IH. destruct (name_matches n (Str.lower hostname)) eqn:Hm;
      [| reflexivity].
    apply H1, eqb_true_iff in Hm. congruence.
Qed.

(** X2: the answer of [match_hostname] does not depend on the letter case
    of the host name asked for: lower-casing it beforehand changes
    nothing, and two host names with the same lower-cased form get the same
    answer from every context. *)
Theorem match_hostname_ignores_hostname_case (ctx : SSLContext) (hostname : string) :
  match_hostname ctx (Str.lower hostname) = match_hostname ctx hostname /\
  (forall other, Str.lower other = Str.lower hostname ->
                 match_hostname ctx other = match_hostname ctx hostname).
Proof.
  unfold match_hostname. rewrite lower_idem.
  split; [reflexivity | intros other ->; reflexivity].
Qed.

(** X3: the served names act as a set: two lists of names with the same
    members give the same answer for every host name, whatever their order
    and however often a name is repeated. *)
Theorem match_hostname_names_as_set
    (ctx1 ctx2 : SSLContext) (names1 names2 : list string) (hostname : string) :
  get_names ctx1 = VList names1 ->
  get_names ctx2 = VList names2 ->
  (forall name, In name names1 <-> In name names2) ->
  match_hostname ctx1 hostname = match_hostname ctx2 hostname.
Proof.
  intros H1 H2 Hsame.
  rewrite (match_hostname_list _ _ _ H1), (match_hostname_list _ _ _ H2).
  f_equal. apply eq_true_iff_eq. rewrite !match_loop_true.
  split; intros (n & Hin & Hm); exists n; (split; [apply Hsame, Hin | exact Hm]).
Qed.

Lemma match_hostname_names_as_set_witness :
  match_hostname (serving ["b.com"; "a.com"; "b.com"]) "A.com"
  = match_hostname (serving ["a.com"; "b.com"]) "A.com".
Proof.
  apply (match_hostname_names_as_set _ _ ["b.com"; "a.com"; "b.com"]
           ["a.com"; "b.com"]); [reflexivity | reflexivity |].
  intros name. simpl. tauto.
Defined.

Lemma only_lowercase_names_match_witness :
  Str.lower "*.example.com" = "*.example.com".
Proof.
  apply (proj1 only_lowercase_names_match "*.example.com" "WWW.Example.com").
  vm_compute. reflexivity.
Defined.

Lemma string_length_app (a b : string) :
  String.length (a +:+ b) = String.length a + String.length b.
Proof. induction a as [|c a IH]; simpl; [reflexivity | rewrite IH; reflexivity]. Qed.

(** The first separator of [x ++ sep ++ h] is not to the right of the one
    written. *)
Lemma first_sep_not_later (sep : ascii) (l t x h : string) :
  Str.contains sep l = false ->
  l +:+ String sep t = x +:+ String sep h ->
  String.length l <= String.length x.
Proof.
  revert x. induction l as [|c l IH]; intros x Hl Heq; simpl; [lia |].
  simpl in Hl. apply orb_false_iff in Hl as [Hc Hl].
  destruct x as [|d x]; simpl in Heq.
  - injection Heq as -> _. rewrite Ascii.eqb_refl in Hc. discriminate.
  - injection Heq as _ Heq. simpl. specialize (IH x Hl Heq). lia.
Qed.

Lemma last_split1_length (sep : ascii) (x h : string) :
  String.length h
  <= String.length (Str.last_item (Str.split1 sep (x +:+ String sep h))).
Proof.
  destruct (contains_split sep _ (contains_app_sep sep x h))
    as (l & t & Hl & Heq).
  rewrite Heq, (split1_sep _ _ _ Hl). unfold Str.last_item. simpl.
  pose proof (first_sep_not_later _ _ _ _ _ Hl (eq_sym Heq)) as Hlen.
  apply (f_equal String.length) in Heq.
  rewrite !string_length_app in Heq. simpl in Heq. lia.
Qed.

(** X4: a wildcard covers one level only.  When the text after the first
    dot of a host name is the suffix of the entry [*.<suffix>], that host
    name with a further label in front is not matched by the entry, whatever
    the label; so a context serving only that entry answers false for it. *)
Theorem wildcard_covers_one_level_only
    (ctx : SSLContext) (suffix label hostname : string) :
  get_names ctx = VList ["*." +:+ suffix] ->
  after_first dot (Str.lower hostname) suffix ->
  name_matches ("*." +:+ suffix) (Str.lower (label +:+ "." +:+ hostname)) = false /\
  match_hostname ctx (label +:+ "." +:+ hostname) = Ok false.
Proof.
  intros Hnames (first & _ & Hh).
  assert (Hm : name_matches ("*." +:+ suffix)
                 (Str.lower (label +:+ "." +:+ hostname)) = false).
  { unfold name_matches.
    change (Str.startswith "*." ("*." +:+ suffix)) with true. cbv iota.
    change (Str.slice_from 2 ("*." +:+ suffix)) with suffix.
    apply String.eqb_neq. intros Heq.
    rewrite lower_app in Heq.
    change (Str.lower ("." +:+ hostname)) with (String dot (Str.lower hostname))
      in Heq.
    pose proof (last_split1_length dot (Str.lower label) (Str.lower hostname))
      as Hlen.
    rewrite Heq, Hh, string_length_app in Hlen. simpl in Hlen. lia. }
  split; [exact Hm |].
  rewrite (match_hostname_list _ _ _ Hnames). cbn [match_loop].
  rewrite Hm. reflexivity.
Qed.

Lemma wildcard_covers_one_level_only_witness :
  match_hostname (serving ["*.example.com"]) "a.b.Example.com" = Ok false.
Proof.
  apply (wildcard_covers_one_level_only (serving ["*.example.com"])
           "example.com" "a" "b.Example.com").
  - reflexivity.
  - exists "b". split; vm_compute; reflexivity.
Defined.

(** ** The selector *)

Lemma all_served_names_some (entries : list SSLContext) (n : string)
    (ns : list string) :
  all_served_names entries = Ok (n :: ns) ->
  exists ctx name names,
    In ctx entries /\ served_names ctx = Ok (name :: names).
Proof.
  induction entries as [|c rest IH]; cbn; [discriminate |].
  destruct (served_names c) as [[|m ms]|] eqn:Hc; cbn; [| | discriminate].
  - destruct (all_served_names rest) as [more|]; cbn; [| discriminate].
    intros [= ->]. destruct (IH eq_refl) as (ctx & name & names & Hin & Hs).
    exists ctx, name, names. auto.
  - intros _. exists c, m, ms. auto.
Qed.

(** X5: what every constructed selector satisfies: it has at least one
    entry, some entry serves at least one name, every entry has names that
    can be scanned, and the fallback, when there is one, is the first
    entry. *)
Theorem constructed_selector_invariants
    (ctxs : list (option SSLContext)) (self : CertSelector) :
  CertSelector_init ctxs = Ok self ->
  sanic_select self <> [] /\
  (exists ctx name names,
      In ctx (sanic_select self) /\ served_names ctx = Ok (name :: names)) /\
  Forall has_names (sanic_select self) /\
  (forall fallback, sanic_fallback self = Some fallback ->
                    exists rest, sanic_select self = fallback :: rest).
Proof.
  intros Hinit. pose proof (init_ok_inv _ _ Hinit) as (Hsel & Hfb & Hall).
  rewrite CertSelector_init_eq in Hinit.
  destruct (all_served_names (surviving ctxs)) as [[|n ns]|e] eqn:Hn;
    try discriminate.
  destruct (all_served_names_some _ _ _ Hn) as (ctx & name & names & Hin & Hs).
  rewrite Hsel. repeat split.
  - intros Hnil. rewrite Hnil in Hin. destruct Hin.
  - exists ctx, name, names. auto.
  - rewrite <- Hsel. exact Hall.
  - intros fallback. rewrite Hfb.
    destruct ctxs as [|[c|] rest]; cbn; try discriminate.
    intros [= ->]. eauto.
Qed.

Lemma constructed_selector_invariants_witness :
  sanic_select {| sanic_select := [serving []; serving ["x.com"]];
                  sanic_fallback := None |} <> [].
Proof.
  apply (constructed_selector_invariants
           [None; Some (serving []); None; Some (serving ["x.com"])]).
  vm_compute. reflexivity.
Defined.

Lemma find_loop_found (entries : list SSLContext) (name : string) (ctx : SSLContext) :
  find_loop entries name = Ok (Some ctx) ->
  In ctx entries /\ match_hostname ctx name = Ok true.
Proof.
  induction entries as [|c rest IH]; cbn; [discriminate |].
  destruct (match_hostname c name) as [[|]|] eqn:Hm; cbn; [| | discriminate].
  - intros [= <-]. auto.
  - intros H. destruct (IH H). auto.
Qed.

(** X6: selection never invents a context.  Whatever [find_cert] returns is
    the fallback or an entry that matches the SNI; for a constructed
    selector it is always one of the entries. *)
Theorem find_cert_returns_an_entry :
  (forall (self : CertSelector) (server_name : option string) (ctx : SSLContext),
      find_cert self server_name = Ok ctx ->
      sanic_fallback self = Some ctx \/
      (exists name, server_name = Some name /\ In ctx (sanic_select self) /\
                    match_hostname ctx name = Ok true)) /\
  (forall ctxs self server_name ctx,
      CertSelector_init ctxs = Ok self ->
      find_cert self server_name = Ok ctx ->
      In ctx (sanic_select self)).
Proof.
  assert (H1 : forall self server_name ctx,
             find_cert self server_name = Ok ctx ->
             sanic_fallback self = Some ctx \/
             (exists name, server_name = Some name /\ In ctx (sanic_select self) /\
                           match_hostname ctx name = Ok true)).
  { intros self server_name ctx. unfold find_cert.
    destruct server_name as [[|c name]|].
    - destruct (sanic_fallback self); [intros [= ->]; auto | discriminate].
    - destruct (find_loop (sanic_select self) (String c name))
        as [[found|]|] eqn:Hf; cbn; [| | discriminate].
      + intros [= ->]. right. exists (String c name).
        destruct (find_loop_found _ _ _ Hf). auto.
      + destruct (sanic_fallback self); [intros [= ->]; auto | discriminate].
    - destruct (sanic_fallback self); [intros [= ->]; auto | discriminate]. }
  split; [exact H1 |].
  intros ctxs self server_name ctx Hinit Hfind.
  destruct (H1 _ _ _ Hfind) as [Hfb | (name & _ & Hin & _)]; [| exact Hin].
  apply init_ok_inv in Hinit as (Hsel & Hfb' & _).
  rewrite Hsel. rewrite Hfb' in Hfb.
  destruct ctxs as [|[c|] rest]; cbn in *; try discriminate.
  injection Hfb as ->. left. reflexivity.
Qed.

Lemma find_cert_returns_an_entry_witness :
  In (serving ["x.com"]) [serving ["x.com"]; serving ["y.com"]].
Proof.
  apply (proj2 find_cert_returns_an_entry
           [Some (serving ["x.com"]); Some (serving ["y.com"])]
           {| sanic_select := [serving ["x.com"]; serving ["y.com"]];
              sanic_fallback := Some (serving ["x.com"]) |}
           (Some "unknown.org")).
  - vm_compute. reflexivity.
  - vm_compute. reflexivity.
Defined.

Lemma find_cert_no_TypeError (self : CertSelector) (server_name : option string) :
  Forall has_names (sanic_select self) ->
  (exists ctx, find_cert self server_name = Ok ctx) \/
  (exists e, find_cert self server_name = Raise (ValueError e)).
Proof.
  intros Hall. unfold find_cert. destruct server_name as [[|c name]|].
  - destruct (sanic_fallback self); eauto.
  - destruct (find_loop_spec _ (String c name) Hall)
      as [(pre & ctx & post & _ & _ & _ & ->) | [_ ->]]; cbn; [eauto |].
    destruct (sanic_fallback self); eauto.
  - destruct (sanic_fallback self); eauto.
Qed.

(** X7: what a handshake can get from a constructed selector.  The callback
    never lets an exception escape: it returns [None] (go on) or the
    unrecognized-name alert.  When the list given starts with a context, the
    fallback is set and no connection is ever rejected, whatever the SNI.
    When it starts with [None], a client without SNI is always rejected, and
    its handshake keeps the context it had. *)
Theorem callback_outcomes_of_constructed_selector
    (ctxs : list (option SSLContext)) (self : CertSelector) :
  CertSelector_init ctxs = Ok self ->
  (forall h server_name,
      snd (selector_sni_callback h server_name self) = Ok None \/
      snd (selector_sni_callback h server_name self)
      = Ok (Some ALERT_DESCRIPTION_UNRECOGNIZED_NAME)) /\
  (forall first rest, ctxs = Some first :: rest ->
      forall h server_name,
        snd (selector_sni_callback h server_name self) = Ok None /\
        exists chosen,
          context (sslobj (fst (selector_sni_callback h server_name self)))
          = Switched chosen) /\
  (forall rest, ctxs = None :: rest ->
      forall h,
        snd (selector_sni_callback h None self)
        = Ok (Some ALERT_DESCRIPTION_UNRECOGNIZED_NAME) /\
        context (sslobj (fst (selector_sni_callback h None self)))
        = context (sslobj h)).
Proof.
  intros Hinit. pose proof (init_ok_inv _ _ Hinit) as (Hsel & Hfb & Hall).
  split; [| split].
  - intros h server_name. rewrite selector_sni_callback_result.
    destruct (find_cert_no_TypeError self server_name Hall) as [[c ->] | [e ->]];
      auto.
  - intros first rest -> h server_name.
    rewrite selector_sni_callback_result, selector_sni_callback_context.
    cbn in Hfb.
    assert (Hok : exists c, find_cert self server_name = Ok c).
    { unfold find_cert. rewrite Hfb.
      destruct server_name as [[|c name]|]; eauto.
      destruct (find_loop_spec _ (String c name) Hall)
        as [(pre & ctx & post & _ & _ & _ & ->) | [_ ->]]; cbn; eauto. }
    destruct Hok as [c ->]. eauto.
  - intros rest -> h.
    rewrite selector_sni_callback_result, selector_sni_callback_context.
    cbn in Hfb. unfold find_cert. rewrite Hfb. auto.
Qed.

Lemma callback_outcomes_of_constructed_selector_witness :
  let self := {| sanic_select := [serving ["x.com"]]; sanic_fallback := None |} in
  let h := {| sslobj := {| sanic_server_name := None; context := Listening |};
              trace := [] |} in
  snd (selector_sni_callback h None self)
  = Ok (Some ALERT_DESCRIPTION_UNRECOGNIZED_NAME) /\
  context (sslobj (fst (selector_sni_callback h None self))) = Listening.
Proof.
  intros self h.
  destruct (callback_outcomes_of_constructed_selector
              [None; Some (serving ["x.com"])] self) as (_ & _ & H).
  - vm_compute. reflexivity.
  - apply (H [Some (serving ["x.com"])] eq_refl h).
Defined.

Lemma surviving_map_Some (entries : list SSLContext) :
  surviving (map Some entries) = entries.
Proof. induction entries as [|c rest IH]; cbn; [| rewrite IH]; reflexivity. Qed.

(** X8: a [None] in the list given matters at index 0 only.  Removing the
    [None] entries after the first element changes nothing, neither the
    selector built nor the error raised; removing a leading [None] changes
    the fallback, which becomes the element that moves to index 0, and
    nothing else. *)
Theorem none_entries_matter_at_index_0_only :
  (forall (first : option SSLContext) (rest : list (option SSLContext)),
      CertSelector_init (first :: rest)
      = CertSelector_init (first :: map Some (surviving rest))) /\
  (forall (rest : list (option SSLContext)) (self : CertSelector),
      CertSelector_init (None :: rest) = Ok self ->
      sanic_fallback self = None /\
      CertSelector_init rest
      = Ok {| sanic_select := sanic_select self;
              sanic_fallback := first_given rest |}).
Proof.
  split.
  - intros first rest. rewrite !CertSelector_init_eq.
    destruct first as [c|]; cbn [surviving first_given];
      rewrite surviving_map_Some; reflexivity.
  - intros rest self. rewrite !CertSelector_init_eq. cbn [surviving first_given].
    destruct (all_served_names (surviving rest)) as [[|n ns]|e]; cbn;
      try discriminate.
    intros [= <-]. split; reflexivity.
Qed.

Lemma none_entries_matter_at_index_0_only_witness :
  CertSelector_init [Some (serving ["x.com"]); Some (serving [])]
  = Ok {| sanic_select := [serving ["x.com"]; serving []];
          sanic_fallback := Some (serving ["x.com"]) |}.
Proof.
  apply (proj2 none_entries_matter_at_index_0_only
           [Some (serving ["x.com"]); Some (serving [])]
           {| sanic_select := [serving ["x.com"]; serving []];
              sanic_fallback := None |}).
  vm_compute. reflexivity.
Defined.

(** ** Contexts and identities *)

Lemma san_names_filter (san : list (string * string)) :
  san_names san = map snd (List.filter dns_or_ip san).
Proof.
  induction san as [|[t name] rest IH]; [reflexivity |].
  cbn [san_names List.filter]. unfold dns_or_ip at 1. cbn [fst].
  destruct (String.eqb t "DNS" || String.eqb t "IP Address"); cbn;
    rewrite IH; reflexivity.
Qed.

Section IdentityProperties.

Variable decode_cert : pyval -> result decoded_cert.
Variable load_cert_chain : pyval -> pyval -> pyval -> result unit.

(** X10: the order of the checks in [CertSimple].  The file names are
    checked first; then, when no [names] are given, the certificate is
    decoded, and a decoding error or a certificate without a
    subjectAltName entry ends the call before the platform is asked to load
    the certificate chain: the outcome is then the same for every chain
    loader.  So a certificate without subjectAltName can only be used with
    explicit [names]. *)
Theorem CertSimple_decodes_before_loading
    (cert key : pyval) (kw : gmap string pyval) :
  kw !! "names" = None ->
  truthy (resolved_cert cert kw) = true ->
  truthy (resolved_key key kw) = true ->
  (forall e, decode_cert (resolved_cert cert kw) = Raise e ->
             CertSimple_new decode_cert load_cert_chain cert key kw = Raise e) /\
  (forall dc, decode_cert (resolved_cert cert kw) = Ok dc ->
              dc_subjectAltName dc = None ->
              CertSimple_new decode_cert load_cert_chain cert key kw
              = Raise (KeyError "subjectAltName")) /\
  (forall dc san e,
      decode_cert (resolved_cert cert kw) = Ok dc ->
      dc_subjectAltName dc = Some san ->
      load_cert_chain (resolved_cert cert kw) (resolved_key key kw)
        (default VNone (kw !! "password")) = Raise e ->
      CertSimple_new decode_cert load_cert_chain cert key kw = Raise e).
Proof.
  intros Hn Tc Tk. rewrite CertSimple_new_eq. cbv zeta.
  rewrite Tc, Tk. cbn [negb orb].
  rewrite renamed_kw_other by discriminate. rewrite Hn.
  split; [| split].
  - intros e ->. reflexivity.
  - intros dc Hd Hs. rewrite Hd. cbn [bind]. rewrite Hs. reflexivity.
  - intros dc san e Hd Hs Hl. rewrite Hd. cbn [bind]. rewrite Hs.
    cbn [bind fst snd]. unfold create_context.
    rewrite Tc, Tk. cbn [andb]. rewrite Hl. reflexivity.
Qed.

(** X11: the served names of an identity loaded without explicit [names]
    are the subjectAltName entries of type DNS or IP Address, in the order
    of the certificate and as the certificate writes them; entries of any
    other type are left out. *)
Theorem names_come_from_subjectAltName
    (cert key : pyval) (kw : gmap string pyval) (self : SSLContext) :
  kw !! "names" = None ->
  CertSimple_new decode_cert load_cert_chain cert key kw = Ok self ->
  exists dc san,
    decode_cert (resolved_cert cert kw) = Ok dc /\
    dc_subjectAltName dc = Some san /\
    get_names self = VList (map snd (List.filter dns_or_ip san)) /\
    served_names self = Ok (map snd (List.filter dns_or_ip san)) /\
    (forall name, In name (map snd (List.filter dns_or_ip san)) <->
                  In ("DNS", name) san \/ In ("IP Address", name) san).
Proof.
  intros Hn Hnew.
  apply CertSimple_new_ok_inv in Hnew as (_ & _ & _ & _ & attrs & Hs & Ha).
  cbv zeta in Ha. rewrite renamed_kw_other in Ha by discriminate.
  rewrite Hn in Ha. destruct Ha as (dc & san & Hd & Hsan & ->).
  exists dc, san. split; [exact Hd |]. split; [exact Hsan |].
  assert (Hg : get_names self = VList (map snd (List.filter dns_or_ip san))).
  { unfold get_names. rewrite Hs.
    rewrite (lookup_union_Some_l _ _ _ (VList (san_names san)))
      by apply lookup_insert_eq.
    cbn. rewrite san_names_filter. reflexivity. }
  split; [exact Hg |]. split.
  - unfold served_names. rewrite Hg. reflexivity.
  - intros name. rewrite in_map_iff. split.
    + intros ([t n] & <- & Hin). apply filter_In in Hin as [Hin Ht].
      unfold dns_or_ip in Ht. cbn in *.
      apply orb_true_iff in Ht as [Ht | Ht]; apply eqb_true_iff in Ht;
        subst t; auto.
    + intros [Hin | Hin]; eexists; (split; [| apply filter_In; split;
        [exact Hin | reflexivity]]); reflexivity.
Qed.

End IdentityProperties.

Lemma CertSimple_decodes_before_loading_witness :
  CertSimple_new no_san_decoder any_chain (VStr "c.pem") (VStr "k.pem") ∅
  = Raise (KeyError "subjectAltName").
Proof.
  assert (Tc : truthy (resolved_cert (VStr "c.pem") ∅) = true)
    by (vm_compute; reflexivity).
  assert (Tk : truthy (resolved_key (VStr "k.pem") ∅) = true)
    by (vm_compute; reflexivity).
  apply (proj1 (proj2 (CertSimple_decodes_before_loading no_san_decoder
                         any_chain (VStr "c.pem") (VStr "k.pem") ∅
                         (lookup_empty _) Tc Tk))
           {| dc_subject := [[("commonName", "a.com")]];
              dc_subjectAltName := None |});
    vm_compute; reflexivity.
Defined.

Lemma names_come_from_subjectAltName_witness :
  match CertSimple_new san_decoder any_chain (VStr "c.pem") (VStr "k.pem") ∅ with
  | Ok self => served_names self = Ok ["a.com"; "*.b.com"; "10.0.0.1"]
  | Raise _ => False
  end.
Proof.
  destruct (CertSimple_new _ _ _ _ _) as [self|e] eqn:H.
  - destruct (names_come_from_subjectAltName san_decoder any_chain _ _ _ self
                (lookup_empty _) H) as (dc & san & Hd & Hs & _ & Hn & _).
    injection Hd as <-. injection Hs as <-. exact Hn.
  - vm_compute in H. discriminate.
Defined.

Lemma find_app_last {A} (p : A -> bool) (l : list A) (x : A) :
  List.find p (l ++ [x]) =
  match List.find p l with
  | Some y => Some y
  | None => if p x then Some x else None
  end.
Proof.
  induction l as [|a l IH]; cbn; [reflexivity |].
  destruct (p a); [reflexivity | exact IH].
Qed.

Lemma fold_insert_lookup (pairs : list (string * string))
    (d : gmap string pyval) (k : string) :
  fold_left (fun d kv => <[fst kv := VStr (snd kv)]> d) pairs d !! k =
  match last_value k pairs with
  | Some v => Some (VStr v)
  | None => d !! k
  end.
Proof.
  revert d. induction pairs as [|[k' v'] rest IH]; intros d; [reflexivity |].
  cbn [fold_left]. rewrite IH. unfold last_value. cbn [rev].
  rewrite find_app_last.
  destruct (List.find _ (rev rest)) as [kv|]; [reflexivity |].
  cbn [fst snd]. rewrite lookup_insert.
  destruct (String.eqb k' k) eqn:Hk.
  - apply eqb_true_iff in Hk as ->. rewrite decide_True by reflexivity.
    reflexivity.
  - apply String.eqb_neq in Hk. rewrite decide_False by exact Hk. reflexivity.
Qed.

(** X12: the dictionary built from a certificate subject holds, for each
    field, the value of its last occurrence in the subject (read through
    all relative distinguished names in order), and nothing for a field
    that does not occur; a field that occurs several times keeps only its
    last value. *)
Theorem subject_dict_keeps_last_value
    (subject : list (list (string * string))) (k : string) :
  subject_dict subject !! k = VStr <$> last_value k (concat subject).
Proof.
  unfold subject_dict. rewrite fold_insert_lookup, lookup_empty.
  destruct (last_value k (concat subject)); reflexivity.
Qed.

Section AttributeProperties.

Variable decode_cert : pyval -> result decoded_cert.
Variable load_cert_chain : pyval -> pyval -> pyval -> result unit.

(** X13: in the attributes of an identity the caller wins.  Every keyword
    argument that is kept (all but the aliases and the password) is found
    in the attributes with the caller's value, also when the certificate
    subject has a field of the same name; [names] is never taken from the
    subject; a subject field appears only under a key the caller did not
    use. *)
Theorem caller_attributes_override_subject
    (cert key : pyval) (kw : gmap string pyval) (self : SSLContext) :
  CertSimple_new decode_cert load_cert_chain cert key kw = Ok self ->
  let kw' := renamed_kw (resolved_cert cert kw) (resolved_key key kw) kw in
  exists attrs,
    sanic self = Some attrs /\
    (forall k v, kw' !! k = Some v -> attrs !! k = Some v) /\
    (forall k, k <> "cert" -> k <> "key" -> k <> "certificate" ->
               k <> "keyfile" -> k <> "password" ->
               forall v, kw !! k = Some v -> attrs !! k = Some v) /\
    (forall k, kw' !! k = None -> k <> "names" ->
       attrs !! k =
       match kw !! "names", decode_cert (resolved_cert cert kw) with
       | None, Ok dc => subject_dict (dc_subject dc) !! k
       | _, _ => None
       end) /\
    (kw !! "names" = None ->
     exists dc san,
       decode_cert (resolved_cert cert kw) = Ok dc /\
       dc_subjectAltName dc = Some san /\
       attrs !! "names" = Some (VList (san_names san))).
Proof.
  intros Hnew kw'.
  apply CertSimple_new_ok_inv in Hnew as (_ & _ & _ & _ & attrs & Hs & Ha).
  cbv zeta in Ha. fold kw' in Ha.
  assert (Hnames : kw' !! "names" = kw !! "names")
    by (apply renamed_kw_other; discriminate).
  rewrite Hnames in Ha.
  exists attrs. split; [exact Hs |].
  assert (Hkeep : forall k v, kw' !! k = Some v -> attrs !! k = Some v).
  { intros k v Hk. destruct (kw !! "names") as [n|] eqn:Hn.
    - subst attrs. exact Hk.
    - destruct Ha as (dc & san & _ & _ & ->).
      apply lookup_union_Some_l. rewrite lookup_insert_ne; [exact Hk |].
      intros <-. rewrite Hnames in Hk. discriminate. }
  split; [exact Hkeep |]. split; [| split].
  - intros k ? ? ? ? ? v Hv. apply Hkeep. unfold kw'.
    rewrite renamed_kw_other by assumption. exact Hv.
  - intros k Hk Hne. destruct (kw !! "names") as [n|] eqn:Hn.
    + subst attrs. exact Hk.
    + destruct Ha as (dc & san & -> & _ & ->).
      apply lookup_union_r. rewrite lookup_insert_ne by congruence. exact Hk.
  - intros Hn. rewrite Hn in Ha. destruct Ha as (dc & san & Hd & Hsan & ->).
    exists dc, san. repeat split; try assumption.
    apply lookup_union_Some_l, lookup_insert_eq.
Qed.

(** X14: the password and the alias keys are not kept.  The attributes of
    an identity hold nothing under [password], [certificate] or [keyfile]
    that the caller passed: with explicit [names] these keys are absent, and
    otherwise they can only hold a field of the certificate subject.  The
    password goes to the certificate chain and nowhere else. *)
Theorem password_and_aliases_are_not_kept
    (cert key : pyval) (kw : gmap string pyval) (self : SSLContext) (k : string) :
  CertSimple_new decode_cert load_cert_chain cert key kw = Ok self ->
  k = "password" \/ k = "certificate" \/ k = "keyfile" ->
  exists attrs,
    sanic self = Some attrs /\
    (is_Some (kw !! "names") -> attrs !! k = None) /\
    (forall v, attrs !! k = Some v ->
       exists dc, decode_cert (resolved_cert cert kw) = Ok dc /\
                  subject_dict (dc_subject dc) !! k = Some v).
Proof.
  intros Hnew Hk.
  apply CertSimple_new_ok_inv in Hnew as (_ & _ & _ & _ & attrs & Hs & Ha).
  cbv zeta in Ha. rewrite renamed_kw_other in Ha by discriminate.
  exists attrs. split; [exact Hs |].
  assert (Hgone : renamed_kw (resolved_cert cert kw) (resolved_key key kw) kw
                  !! k = None)
    by (destruct Hk as [-> | [-> | ->]]; lookup_kw).
  assert (Hne : k <> "names") by (destruct Hk as [-> | [-> | ->]]; discriminate).
  destruct (kw !! "names") as [n|].
  - subst attrs. split; [intros _; exact Hgone |].
    intros v Hv. rewrite Hgone in Hv. discriminate.
  - destruct Ha as (dc & san & Hd & _ & ->).
    assert (Hl : (<["names":=VList (san_names san)]>
                    (renamed_kw (resolved_cert cert kw) (resolved_key key kw) kw)
                  ∪ subject_dict (dc_subject dc)) !! k
                 = subject_dict (dc_subject dc) !! k).
    { apply lookup_union_r. rewrite lookup_insert_ne by congruence. exact Hgone. }
    split; [intros [? [=]] |].
    intros v Hv. exists dc. split; [exact Hd |]. rewrite <- Hl. exact Hv.
Qed.

End AttributeProperties.

Lemma caller_attributes_override_subject_witness :
  match CertSimple_new san_decoder any_chain (VStr "c.pem") (VStr "k.pem")
          {["commonName" := VStr "override"]} with
  | Ok self =>
      exists attrs, sanic self = Some attrs /\
                    attrs !! "commonName" = Some (VStr "override")
  | Raise _ => False
  end.
Proof.
  destruct (CertSimple_new _ _ _ _ _) as [self|e] eqn:H.
  - destruct (caller_attributes_override_subject san_decoder any_chain _ _ _ _ H)
      as (attrs & Hs & _ & Hkeep & _).
    exists attrs. split; [exact Hs |].
    apply Hkeep; try discriminate. apply lookup_singleton_eq.
  - vm_compute in H. discriminate.
Defined.

Lemma password_and_aliases_are_not_kept_witness :
  match CertSimple_new no_decoder any_chain (VStr "c.pem") (VStr "k.pem")
          (<["password" := VStr "secret"]> {["names" := VList ["a.com"]]}) with
  | Ok self =>
      exists attrs, sanic self = Some attrs /\ attrs !! "password" = None
  | Raise _ => False
  end.
Proof.
  destruct (CertSimple_new _ _ _ _ _) as [self|e] eqn:H.
  - destruct (password_and_aliases_are_not_kept no_decoder any_chain _ _ _ _
                "password" H (or_introl eq_refl)) as (attrs & Hs & Hnone & _).
    exists attrs. split; [exact Hs |].
    apply Hnone. exists (VList ["a.com"]). vm_compute. reflexivity.
  - vm_compute in H. discriminate.
Defined.

(** ** Directories and lists of shorthands *)

Section ResolutionProperties.

Variable decode_cert : pyval -> result decoded_cert.
Variable load_cert_chain : pyval -> pyval -> pyval -> result unit.
Variable isfile : string -> bool.
Variable readable : string -> bool.
Variable path_join : string -> string -> string.

(** X15: a certificate directory.  [load_cert_dir] refuses a path that is
    a file, then reports the private key when it is not readable (also when
    the chain is not readable either), then the chain.  An identity it
    returns was read from a directory with both files readable: its chain
    is the two well-known files with no password, its [cert] and [key]
    attributes are their paths, and its served names always come from the
    subjectAltName of the chain file. *)
Theorem load_cert_dir_checks_then_loads (p : string) :
  let dir := load_cert_dir decode_cert load_cert_chain isfile readable path_join in
  let keyfile := path_join p "privkey.pem" in
  let certfile := path_join p "fullchain.pem" in
  (isfile p = true -> dir p = Raise (ValueError (FolderExpected p))) /\
  (isfile p = false -> readable keyfile = false ->
   dir p = Raise (ValueError (NotFoundOrDenied keyfile))) /\
  (isfile p = false -> readable keyfile = true -> readable certfile = false ->
   dir p = Raise (ValueError (NotFoundOrDenied certfile))) /\
  (forall self, dir p = Ok self ->
     isfile p = false /\ readable keyfile = true /\ readable certfile = true /\
     cert_chain self = Some (VStr certfile, VStr keyfile, VNone) /\
     exists attrs dc san,
       sanic self = Some attrs /\
       attrs !! "cert" = Some (VStr certfile) /\
       attrs !! "key" = Some (VStr keyfile) /\
       decode_cert (VStr certfile) = Ok dc /\
       dc_subjectAltName dc = Some san /\
       served_names self = Ok (san_names san)).
Proof.
  cbv zeta. unfold load_cert_dir. split; [| split; [| split]].
  - intros ->. reflexivity.
  - intros -> ->. reflexivity.
  - intros -> -> ->. reflexivity.
  - intros self. destruct (isfile p); [discriminate |].
    destruct (readable (path_join p "privkey.pem")); [| discriminate].
    destruct (readable (path_join p "fullchain.pem")); [| discriminate].
    cbn [negb]. intros Hnew.
    pose proof (CertSimple_new_ok_inv _ _ _ _ _ _ Hnew)
      as (_ & _ & _ & Hch & attrs & Hs & Ha).
    pose proof (CertSimple_new_attrs _ _ _ _ _ _ Hnew) as (attrs' & Hs' & Hc & Hk).
    rewrite Hs in Hs'. injection Hs' as <-.
    cbv zeta in Ha. rewrite renamed_kw_other in Ha by discriminate.
    rewrite lookup_empty in Ha. destruct Ha as (dc & san & Hd & Hsan & Hattrs).
    repeat split; try reflexivity; try exact Hch.
    exists attrs, dc, san. repeat split; try assumption.
    unfold served_names, get_names. rewrite Hs, Hattrs.
    rewrite (lookup_union_Some_l _ _ _ (VList (san_names san)))
      by apply lookup_insert_eq.
    reflexivity.
Qed.

Lemma init_loop_iter_values (ctxs : list (option SSLContext)) :
  forall i rest self all_names,
    init_loop_iter i (map Ok ctxs ++ rest) self all_names =
    let! st := init_loop i ctxs self all_names in
    init_loop_iter (i + length ctxs) rest (fst st) (snd st).
Proof.
  induction ctxs as [|[c|] ctxs IH]; intros i rest self all_names.
  - cbn. rewrite Nat.add_0_r. reflexivity.
  - cbn [map app init_loop_iter init_loop bind length].
    destruct (iterate (get_names c)) as [names|e]; [| reflexivity].
    cbn [bind]. rewrite IH. rewrite Nat.add_succ_comm. reflexivity.
  - cbn [map app init_loop_iter init_loop bind length].
    rewrite IH. rewrite Nat.add_succ_comm. reflexivity.
Qed.


Lemma converted_map (items : list ssldef) (ctxs : list (option SSLContext)) :
  Forall2 (fun d c => shorthand_to_ctx decode_cert load_cert_chain isfile
                        readable path_join d = Ok c) items ctxs ->
  map (shorthand_to_ctx decode_cert load_cert_chain isfile readable path_join)
      items = map Ok ctxs.
Proof. induction 1 as [|d c ds cs Hd _ IH]; cbn; [| rewrite Hd, IH]; reflexivity. Qed.


Lemma init_loop_iter_raise (ctxs : list (option SSLContext)) (e : exn)
    (post : list (result (option SSLContext))) :
  Forall has_names (surviving ctxs) ->
  CertSelector_init_iter (map Ok ctxs ++ Raise e :: post) = Raise e.
Proof.
  intros Hall. unfold CertSelector_init_iter.
  rewrite init_loop_iter_values, init_loop_eq.
  destruct (has_names_all_served_names _ Hall) as [names ->]. reflexivity.
Qed.

(** X17: a list is resolved element by element, and the first failure ends
    it.  When an element does not resolve and the elements before it
    resolved to [None] or to contexts with served names, the error of that
    element is the outcome, whatever follows it in the list: later elements
    are not looked at, and the names collected so far do not matter. *)
Theorem process_to_context_stops_at_first_failure
    (pre post : list ssldef) (ctxs : list (option SSLContext))
    (bad : ssldef) (e : exn) :
  let resolve :=
    shorthand_to_ctx decode_cert load_cert_chain isfile readable path_join in
  Forall2 (fun d c => resolve d = Ok c) pre ctxs ->
  Forall has_names (surviving ctxs) ->
  resolve bad = Raise e ->
  process_to_context decode_cert load_cert_chain isfile readable path_join
    (Several (pre ++ bad :: post)) = Raise e.
Proof.
  cbv zeta. intros Hpre Hall Hbad. unfold process_to_context.
  rewrite map_app. cbn [map]. rewrite (converted_map _ _ Hpre), Hbad.
  rewrite (init_loop_iter_raise _ _ _ Hall). reflexivity.
Qed.

End ResolutionProperties.

Lemma load_cert_dir_checks_then_loads_witness :
  load_cert_dir san_decoder any_chain no_file (fun p => negb (String.eqb p "d/privkey.pem"))
    slash_join "d"
  = Raise (ValueError (NotFoundOrDenied "d/privkey.pem")).
Proof.
  apply (proj1 (proj2 (load_cert_dir_checks_then_loads san_decoder any_chain
                         no_file _ slash_join "d"))); reflexivity.
Defined.


Lemma process_to_context_stops_at_first_failure_witness :
  process_to_context no_decoder any_chain no_file all_readable slash_join
    (Several [DContext (serving ["x.com"]); DOther; DContext (serving ["y.com"])])
  = Raise (ValueError InvalidSslArgument).
Proof.
  apply (process_to_context_stops_at_first_failure no_decoder any_chain no_file
           all_readable slash_join [DContext (serving ["x.com"])]
           [DContext (serving ["y.com"])] [Some (serving ["x.com"])] DOther).
  - repeat constructor.
  - repeat constructor. eexists. reflexivity.
  - reflexivity.
Defined.

(** ** Certificates for local development *)

Section LocalDevelopmentProperties.

Variable World : Type.
Variable path_exists : World -> Path -> outcome bool.
Variable Path_of : string -> Path.
Variable joinpath : Path -> string -> Path.
Variable parent : Path -> Path.
Variable mkdtemp : World -> World * outcome string.
Variable run : World -> list string -> stdio -> World * outcome string.
Variable loading :
  string -> (World -> World * outcome string) -> World -> World * outcome string.
Variable stdout_write : World -> string -> World.
Variable stdout_flush : World -> World.
Variable decode_cert_in : World -> pyval -> result decoded_cert.
Variable load_cert_chain_in : World -> pyval -> pyval -> pyval -> result unit.
Variable DEFAULT_LOCAL_TLS_KEY : path_or_str.
Variable DEFAULT_LOCAL_TLS_CERT : path_or_str.

Local Abbreviation make_path := (_make_path World path_exists Path_of joinpath).
Local Abbreviation generate :=
  (generate_local_certificate World path_exists parent run loading stdout_write
     stdout_flush).
Local Abbreviation local_paths :=
  (resolve_local_paths World path_exists Path_of joinpath parent mkdtemp run
     loading stdout_write stdout_flush DEFAULT_LOCAL_TLS_KEY
     DEFAULT_LOCAL_TLS_CERT).
Local Abbreviation ssl_context :=
  (get_ssl_context World path_exists Path_of joinpath parent mkdtemp run loading
     stdout_write stdout_flush decode_cert_in load_cert_chain_in
     DEFAULT_LOCAL_TLS_KEY DEFAULT_LOCAL_TLS_CERT).
Local Abbreviation identity := (loaded_identity decode_cert_in load_cert_chain_in).

(** What the [try] block leaves in the variables: [cert_path] is bound only
    after [key_path], and both are bound when the block ran to its end. *)
Lemma local_paths_bound (w : World) (app : Sanic) :
  let c := snd (fst (local_paths w app)) in
  (cl_cert_path c <> None -> cl_key_path c <> None) /\
  (forall paths, snd (local_paths w app) = Returned paths ->
                 cl_key_path c = Some (fst paths) /\
                 cl_cert_path c = Some (snd paths)).
Proof.
  cbv zeta. unfold resolve_local_paths.
  destruct (match LOCAL_TLS_KEY app, LOCAL_TLS_CERT app with
            | Given _, Given _ => _ | _, _ => _ end) as [w1 [tmpdir|e]];
    [| cbn; split; [congruence | discriminate]].
  destruct (make_path w1 _ tmpdir) as [kp|e];
    [| cbn; split; [congruence | discriminate]].
  destruct (make_path w1 _ tmpdir) as [cp|e];
    [| cbn; split; [congruence | discriminate]].
  destruct (path_exists w1 cp) as [there|e];
    [| cbn; split; [congruence | discriminate]].
  destruct (negb there).
  - destruct (generate w1 kp cp (LOCALHOST app)) as [w2 [[]|e]]; cbn;
      (split; [congruence |]); [| discriminate].
    intros paths [= <-]. auto.
  - cbn. split; [congruence |]. intros paths [= <-]. auto.
Qed.

(** X18: what [get_ssl_context] leaves behind.  With a context supplied it
    returns that context and does nothing else, in any mode; without one in
    PRODUCTION mode it raises and does nothing else: no temporary directory,
    no subprocess, no listener.  In every other case it registers exactly
    one [cleanup] listener, on success and on every failure alike.  After a
    call that returned, the listener finds [key_path] and [cert_path]
    bound.  After a failure it may not: when the key setting is the default,
    the temporary directory was made and looking up the default key name
    raises, the call fails with that error, and the listener registered has
    the temporary directory but no [key_path], so running it raises
    NameError and leaves the directory behind. *)
Theorem get_ssl_context_registers_one_cleanup
    (w : World) (listeners : list closure) (app : Sanic) (ssl : option SSLContext) :
  let out := ssl_context w listeners app ssl in
  match ssl, mode app with
  | Some ctx, _ => out = (w, listeners, Returned ctx)
  | None, PRODUCTION =>
      out = (w, listeners, Raised (SanicException NoCertificateInProduction))
  | None, DEBUG =>
      exists c, snd (fst out) = listeners ++ [c] /\
                c = snd (fst (local_paths w app)) /\
                fst (fst out) = fst (fst (local_paths w app)) /\
                (cl_cert_path c <> None -> cl_key_path c <> None) /\
                (forall ctx, snd out = Returned ctx ->
                             cl_key_path c <> None /\ cl_cert_path c <> None)
  end /\
  (forall (w1 : World) (d name : string) (e : startup_exn),
      mode app = DEBUG -> LOCAL_TLS_KEY app = IsDefault ->
      DEFAULT_LOCAL_TLS_KEY = IsStr name ->
      mkdtemp w = (w1, Returned d) ->
      path_exists w1 (Path_of name) = Raised e ->
      let c := mkClosure (Some (Path_of d)) None None in
      ssl_context w listeners app None = (w1, listeners ++ [c], Raised e) /\
      forall unlink rmdir w',
        cleanup World unlink rmdir c w' = (w', Raised NameError)).
Proof.
  cbv zeta. split.
  - unfold get_ssl_context. destruct ssl as [ctx|]; [reflexivity |].
    destruct (mode app); [reflexivity |].
    pose proof (local_paths_bound w app) as [Hb1 Hb2].
    destruct (local_paths w app) as [[w1 c] [[kp cp]|e]]; cbn in *.
    + exists c. destruct (Hb2 _ eq_refl) as [Hk Hc].
      destruct (CertSimple_new _ _ _ _ _); cbn; repeat split; auto;
        intros; congruence.
    + exists c. repeat split; auto; try discriminate.
  - intros w1 d name e Hm Hk Hd Hmk He.
    unfold get_ssl_context, resolve_local_paths, _make_path.
    rewrite Hm, Hk, Hd.
    destruct (LOCAL_TLS_CERT app); rewrite Hmk; cbn; rewrite He; cbn;
      split; reflexivity.
Qed.

(** X19: with both settings given, no temporary directory is involved.
    When neither [LOCAL_TLS_KEY] nor [LOCAL_TLS_CERT] is the default
    placeholder, [mkdtemp] is not called (the outcome is the same for every
    [mkdtemp]), the listener registered has no temporary directory, and
    running it later touches nothing: it unlinks no file, whatever
    [unlink] and [rmdir] would do. *)
Theorem given_settings_use_no_temporary_directory
    (w : World) (listeners : list closure) (app : Sanic)
    (key cert : path_or_str) :
  mode app = DEBUG ->
  LOCAL_TLS_KEY app = Given key -> LOCAL_TLS_CERT app = Given cert ->
  (forall mkdtemp' : World -> World * outcome string,
      get_ssl_context World path_exists Path_of joinpath parent mkdtemp' run
        loading stdout_write stdout_flush decode_cert_in load_cert_chain_in
        DEFAULT_LOCAL_TLS_KEY DEFAULT_LOCAL_TLS_CERT w listeners app None
      = ssl_context w listeners app None) /\
  exists c,
    snd (fst (ssl_context w listeners app None)) = listeners ++ [c] /\
    cl_tmpdir c = None /\
    forall unlink rmdir w', cleanup World unlink rmdir c w' = (w', Returned tt).
Proof.
  intros Hm Hk Hc. split.
  - intros mkdtemp'. unfold get_ssl_context, resolve_local_paths.
    rewrite Hm, Hk, Hc. reflexivity.
  - unfold get_ssl_context, resolve_local_paths. rewrite Hm, Hk, Hc.
    destruct (make_path w key None) as [kp|e];
      [| eexists; cbn; repeat split; reflexivity].
    destruct (make_path w cert None) as [cp|e];
      [| eexists; cbn; repeat split; reflexivity].
    destruct (path_exists w cp) as [there|e];
      [| eexists; cbn; repeat split; reflexivity].
    destruct (negb there).
    + destruct (generate w kp cp (LOCALHOST app)) as [w2 [[]|e]];
        [| eexists; cbn; repeat split; reflexivity].
      destruct (CertSimple_new _ _ _ _ _); eexists; cbn; repeat split;
        reflexivity.
    + destruct (CertSimple_new _ _ _ _ _); eexists; cbn; repeat split;
        reflexivity.
Qed.

(** X20: a missing file that is named by a string.  [_make_path] returns a
    [Path] as it is, without a look at the file system.  For a string it
    raises in two cases only: the look-up of the file itself raises, and
    that error is passed on; or the file does not exist while there is no
    temporary directory, and then it is the RuntimeError.  So with both
    settings given and [LOCAL_TLS_KEY] a string that names no file,
    [get_ssl_context] fails with the RuntimeError before anything is
    generated, leaving a listener with nothing bound. *)
Theorem missing_file_named_by_string_is_an_error :
  (forall (w : World) (v : path_or_str) (tmpdir : option Path) (e : startup_exn),
      make_path w v tmpdir = Raised e <->
      exists s, v = IsStr s /\
                (path_exists w (Path_of s) = Raised e \/
                 (path_exists w (Path_of s) = Returned false /\
                  tmpdir = None /\ e = RuntimeError))) /\
  (forall (w : World) (p : Path) (tmpdir : option Path),
      make_path w (IsPath p) tmpdir = Returned p) /\
  (forall (w : World) (listeners : list closure) (app : Sanic) (s : string)
          (cert : path_or_str),
      mode app = DEBUG ->
      LOCAL_TLS_KEY app = Given (IsStr s) -> LOCAL_TLS_CERT app = Given cert ->
      path_exists w (Path_of s) = Returned false ->
      ssl_context w listeners app None
      = (w, listeners ++ [mkClosure None None None], Raised RuntimeError)).
Proof.
  split; [| split].
  - intros w v tmpdir e. unfold _make_path. split.
    + destruct v as [p|s]; [discriminate |].
      destruct (path_exists w (Path_of s)) as [[|]|e'] eqn:He; cbn.
      * discriminate.
      * destruct tmpdir; [discriminate |]. intros [= <-]. eauto 8.
      * intros [= <-]. eauto.
    + intros (s & -> & [-> | (-> & -> & ->)]); reflexivity.
  - reflexivity.
  - intros w listeners app s cert Hm Hk Hc He.
    unfold get_ssl_context, resolve_local_paths, _make_path.
    rewrite Hm, Hk, Hc, He. reflexivity.
Qed.

(** X21: the certificate decides whether anything is generated.  With both
    settings given as [Path]s, a certificate file that exists is loaded as
    it is and nothing is run, whether or not the key file exists; a
    certificate file that does not exist makes [generate_local_certificate]
    run for the two paths, also when the key file is there, and its failure
    is the failure of the call; when the look-up of the certificate file
    raises, that error is the failure of the call and nothing is run. *)
Theorem certificate_file_decides_generation
    (w : World) (listeners : list closure) (app : Sanic) (key_path cert_path : Path) :
  mode app = DEBUG ->
  LOCAL_TLS_KEY app = Given (IsPath key_path) ->
  LOCAL_TLS_CERT app = Given (IsPath cert_path) ->
  let c := mkClosure None (Some key_path) (Some cert_path) in
  (path_exists w cert_path = Returned true ->
   ssl_context w listeners app None
   = (w, listeners ++ [c], identity w cert_path key_path)) /\
  (path_exists w cert_path = Returned false ->
   ssl_context w listeners app None
   = match generate w key_path cert_path (LOCALHOST app) with
     | (w', Returned _) => (w', listeners ++ [c], identity w' cert_path key_path)
     | (w', Raised e) => (w', listeners ++ [c], Raised e)
     end) /\
  (forall e, path_exists w cert_path = Raised e ->
             ssl_context w listeners app None = (w, listeners ++ [c], Raised e)).
Proof.
  intros Hm Hk Hc. cbv zeta.
  unfold get_ssl_context, resolve_local_paths, _make_path, loaded_identity.
  rewrite Hm, Hk, Hc. split; [| split].
  - intros ->. cbn [negb].
    destruct (CertSimple_new _ _ _ _ _); reflexivity.
  - intros ->. cbn [negb].
    destruct (generate w key_path cert_path (LOCALHOST app)) as [w' [[]|e]];
      [| reflexivity].
    destruct (CertSimple_new _ _ _ _ _); reflexivity.
  - intros e ->. reflexivity.
Qed.

(** X22: default settings and files found in place.  With both settings
    left at the default and the two default names given as strings, a
    temporary directory is made in every case.  Names that exist where they
    are looked up are used in place, nothing is generated, and the listener
    registered will unlink these very files and then remove the temporary
    directory.  Names that do not exist are placed in the temporary
    directory and generated there. *)
Theorem default_settings_use_files_in_place
    (w w1 : World) (listeners : list closure) (app : Sanic)
    (key_name cert_name d : string) :
  mode app = DEBUG ->
  LOCAL_TLS_KEY app = IsDefault -> LOCAL_TLS_CERT app = IsDefault ->
  DEFAULT_LOCAL_TLS_KEY = IsStr key_name ->
  DEFAULT_LOCAL_TLS_CERT = IsStr cert_name ->
  mkdtemp w = (w1, Returned d) ->
  let tmpdir := Path_of d in
  (path_exists w1 (Path_of key_name) = Returned true ->
   path_exists w1 (Path_of cert_name) = Returned true ->
   let c := mkClosure (Some tmpdir) (Some (Path_of key_name))
              (Some (Path_of cert_name)) in
   ssl_context w listeners app None
   = (w1, listeners ++ [c],
      identity w1 (Path_of cert_name) (Path_of key_name)) /\
   forall unlink rmdir w2 w3 w4,
     unlink w2 (Path_of key_name) = (w3, Returned tt) ->
     unlink w3 (Path_of cert_name) = (w4, Returned tt) ->
     cleanup World unlink rmdir c w2 = rmdir w4 tmpdir) /\
  (path_exists w1 (Path_of key_name) = Returned false ->
   path_exists w1 (Path_of cert_name) = Returned false ->
   path_exists w1 (joinpath tmpdir cert_name) = Returned false ->
   let c := mkClosure (Some tmpdir) (Some (joinpath tmpdir key_name))
              (Some (joinpath tmpdir cert_name)) in
   ssl_context w listeners app None
   = match generate w1 (joinpath tmpdir key_name) (joinpath tmpdir cert_name)
             (LOCALHOST app) with
     | (w', Returned _) =>
         (w', listeners ++ [c],
          identity w' (joinpath tmpdir cert_name) (joinpath tmpdir key_name))
     | (w', Raised e) => (w', listeners ++ [c], Raised e)
     end).
Proof.
  intros Hm Hk Hc Hdk Hdc Hmk. cbv zeta.
  unfold get_ssl_context, resolve_local_paths, _make_path, loaded_identity.
  rewrite Hm, Hk, Hc, Hdk, Hdc, Hmk. split.
  - intros Hek Hec. rewrite Hek, Hec. cbn [negb]. rewrite Hec. cbn [negb].
    split.
    + destruct (CertSimple_new _ _ _ _ _); reflexivity.
    + intros unlink rmdir w2 w3 w4 H1 H2. unfold cleanup. cbn.
      rewrite H1, H2. reflexivity.
  - intros Hek Hec Het. rewrite Hek, Hec. cbn [negb]. rewrite Het. cbn [negb].
    destruct (generate w1 _ _ (LOCALHOST app)) as [w' [[]|e]]; [| reflexivity].
    destruct (CertSimple_new _ _ _ _ _); reflexivity.
Qed.

(** X23: when no certificate can be generated.  If the [mkcert -help]
    probe fails, for whatever reason, the call raises the exception that
    says [mkcert] is not installed and stops there.  If the probe succeeds
    and the directory of the key does not exist, or it exists and the
    directory of the certificate does not, the call raises the exception
    naming both paths.  In both cases the command that generates the
    certificate is not run and nothing is written to the terminal: the
    world is the one the probe left. *)
Theorem no_generation_without_mkcert_or_directory
    (w w1 : World) (key_path cert_path : Path) (localhost : string) :
  (forall e,
      run w ["mkcert"; "-help"] Discarded = (w1, Raised e) ->
      generate w key_path cert_path localhost
      = (w1, Raised (SanicException MkcertNotInstalled))) /\
  (forall text,
      run w ["mkcert"; "-help"] Discarded = (w1, Returned text) ->
      path_exists w1 (parent key_path) = Returned false \/
      (path_exists w1 (parent key_path) = Returned true /\
       path_exists w1 (parent cert_path) = Returned false) ->
      generate w key_path cert_path localhost
      = (w1, Raised (SanicException
                       (CannotGenerateCertificate (path_str key_path)
                          (path_str cert_path))))).
Proof.
  unfold generate_local_certificate, check_mkcert. split.
  - intros e ->. reflexivity.
  - intros text -> [-> | [-> ->]]; reflexivity.
Qed.

End LocalDevelopmentProperties.

(** X24: what the registered [cleanup] does when it has a temporary
    directory.  It unlinks the key, then the certificate, then removes the
    directory.  A key file that is already gone ends the unlinking: the
    certificate file is left where it is, and the removal of the directory
    is attempted all the same.  Any other failure to unlink ends the
    cleanup without the removal of the directory. *)
Theorem cleanup_unlinks_then_removes
    (World : Type) (unlink rmdir : World -> Path -> World * outcome unit)
    (tmpdir key_path cert_path : Path) (w w1 : World) :
  let c := mkClosure (Some tmpdir) (Some key_path) (Some cert_path) in
  (unlink w key_path = (w1, Raised FileNotFoundError) ->
   cleanup World unlink rmdir c w = rmdir w1 tmpdir) /\
  (forall e, unlink w key_path = (w1, Raised e) -> e <> FileNotFoundError ->
             cleanup World unlink rmdir c w = (w1, Raised e)) /\
  (unlink w key_path = (w1, Returned tt) ->
   forall w2,
     (unlink w1 cert_path = (w2, Returned tt) \/
      unlink w1 cert_path = (w2, Raised FileNotFoundError) ->
      cleanup World unlink rmdir c w = rmdir w2 tmpdir) /\
     (forall e, unlink w1 cert_path = (w2, Raised e) -> e <> FileNotFoundError ->
                cleanup World unlink rmdir c w = (w2, Raised e))).
Proof.
  cbv zeta. unfold cleanup. cbn. split; [| split].
  - intros ->. reflexivity.
  - intros e -> He. destruct e; congruence.
  - intros -> w2. split.
    + intros [-> | ->]; reflexivity.
    + intros e -> He. destruct e; congruence.
Qed.

Lemma cleanup_unlinks_then_removes_witness :
  cleanup (list string) ex_unlink (fun w p => (w, Returned tt))
    (mkClosure (Some (mkPath "/tmp/dev")) (Some (mkPath "key.pem"))
       (Some (mkPath "cert.pem")))
    ["cert.pem"; "/tmp/dev"]
  = (["cert.pem"; "/tmp/dev"], Returned tt).
Proof.
  apply (proj1 (cleanup_unlinks_then_removes (list string) ex_unlink
                  (fun w p => (w, Returned tt)) (mkPath "/tmp/dev")
                  (mkPath "key.pem") (mkPath "cert.pem")
                  ["cert.pem"; "/tmp/dev"] ["cert.pem"; "/tmp/dev"])).
  reflexivity.
Defined.

Lemma given_settings_use_no_temporary_directory_witness :
  exists c,
    snd (fst (ex_get_ssl_context ["c.pem"] []
                (ex_app (Given (IsPath (mkPath "k.pem")))
                   (Given (IsPath (mkPath "c.pem")))) None)) = [c] /\
    cl_tmpdir c = None.
Proof.
  destruct (given_settings_use_no_temporary_directory (list string) ex_dirs
              mkPath ex_joinpath ex_parent ex_mkdtemp ex_run ex_loading ex_write
              ex_flush ex_decode ex_load (IsStr "key.pem") (IsStr "cert.pem")
              ["c.pem"] []
              (ex_app (Given (IsPath (mkPath "k.pem")))
                 (Given (IsPath (mkPath "c.pem"))))
              (IsPath (mkPath "k.pem")) (IsPath (mkPath "c.pem"))
              eq_refl eq_refl eq_refl) as (_ & c & Hl & Ht & _).
  exists c. split; [exact Hl | exact Ht].
Defined.

Lemma missing_file_named_by_string_is_an_error_witness :
  ex_get_ssl_context [] []
    (ex_app (Given (IsStr "missing.key")) (Given (IsStr "missing.crt"))) None
  = ([], [mkClosure None None None], Raised RuntimeError).
Proof.
  apply (proj2 (proj2 (missing_file_named_by_string_is_an_error (list string)
                         ex_dirs mkPath ex_joinpath ex_parent ex_mkdtemp ex_run
                         ex_loading ex_write ex_flush ex_decode ex_load
                         (IsStr "key.pem") (IsStr "cert.pem")))
           [] [] _ "missing.key" (IsStr "missing.crt")); reflexivity.
Defined.

Lemma certificate_file_decides_generation_witness :
  fst (fst (ex_get_ssl_context ["c.pem"] []
              (ex_app (Given (IsPath (mkPath "k.pem")))
                 (Given (IsPath (mkPath "c.pem")))) None)) = ["c.pem"].
Proof.
  unfold ex_get_ssl_context.
  rewrite (proj1 (certificate_file_decides_generation (list string) ex_dirs
                    mkPath ex_joinpath ex_parent ex_mkdtemp ex_run ex_loading
                    ex_write ex_flush ex_decode ex_load (IsStr "key.pem")
                    (IsStr "cert.pem") ["c.pem"] []
                    (ex_app (Given (IsPath (mkPath "k.pem")))
                       (Given (IsPath (mkPath "c.pem"))))
                    (mkPath "k.pem") (mkPath "c.pem") eq_refl eq_refl eq_refl)
             eq_refl).
  reflexivity.
Defined.

Lemma default_settings_use_files_in_place_witness :
  snd (fst (ex_get_ssl_context ["key.pem"; "cert.pem"] []
              (ex_app IsDefault IsDefault) None))
  = [mkClosure (Some (mkPath "/tmp/dev")) (Some (mkPath "key.pem"))
       (Some (mkPath "cert.pem"))].
Proof.
  destruct (proj1 (default_settings_use_files_in_place (list string) ex_dirs
                     mkPath ex_joinpath ex_parent ex_mkdtemp ex_run ex_loading
                     ex_write ex_flush ex_decode ex_load (IsStr "key.pem")
                     (IsStr "cert.pem") ["key.pem"; "cert.pem"]
                     ["/tmp/dev"; "key.pem"; "cert.pem"] []
                     (ex_app IsDefault IsDefault) "key.pem" "cert.pem" "/tmp/dev"
                     eq_refl eq_refl eq_refl eq_refl eq_refl eq_refl)
              eq_refl eq_refl) as [H _].
  unfold ex_get_ssl_context. rewrite H. reflexivity.
Defined.

Lemma no_generation_without_mkcert_or_directory_witness :
  generate_local_certificate (list string) ex_dirs ex_parent ex_no_mkcert
    ex_loading ex_write ex_flush [] (mkPath "k.pem") (mkPath "c.pem") "localhost"
  = ([], Raised (SanicException MkcertNotInstalled)).
Proof.
  apply (proj1 (no_generation_without_mkcert_or_directory (list string) ex_dirs
                  ex_parent ex_no_mkcert ex_loading ex_write ex_flush [] []
                  (mkPath "k.pem") (mkPath "c.pem") "localhost")
           FileNotFoundError).
  reflexivity.
Defined.

Lemma match_hostname_ignores_hostname_case_witness :
  match_hostname (serving ["example.com"]) "EXAMPLE.COM"
  = match_hostname (serving ["example.com"]) "Example.com".
Proof.
  apply (proj2 (match_hostname_ignores_hostname_case (serving ["example.com"])
                  "Example.com") "EXAMPLE.COM").
  vm_compute. reflexivity.
Defined.

Lemma get_ssl_context_registers_one_cleanup_witness :
  let c := mkClosure (Some (mkPath "/tmp/dev")) None None in
  get_ssl_context (list string) ex_denied mkPath ex_joinpath ex_parent ex_mkdtemp
    ex_run ex_loading ex_write ex_flush ex_decode ex_load
    (IsStr "key.pem") (IsStr "cert.pem") [] [] (ex_app IsDefault IsDefault) None
  = (["/tmp/dev"], [c], Raised (OSError 13)) /\
  cleanup (list string) ex_unlink (fun w p => (w, Returned tt)) c ["/tmp/dev"]
  = (["/tmp/dev"], Raised NameError).
Proof.
  intros c.
  destruct (proj2 (get_ssl_context_registers_one_cleanup (list string) ex_denied
                     mkPath ex_joinpath ex_parent ex_mkdtemp ex_run ex_loading
                     ex_write ex_flush ex_decode ex_load (IsStr "key.pem")
                     (IsStr "cert.pem") [] [] (ex_app IsDefault IsDefault) None)
              ["/tmp/dev"] "/tmp/dev" "key.pem" (OSError 13)
              eq_refl eq_refl eq_refl eq_refl eq_refl) as [H1 H2].
  split; [exact H1 | apply H2].
Defined.
